(** * The [details] service of instana-tracing-go

    A shallow embedding of [details-instrumented.go]: the request handler
    [details], the resolver [getBookDetails], the outbound client
    [fetchDetailsFromExternalService] and the header filter
    [getForwardHeaders], together with the parts of the Go standard library
    they call ([strconv.Atoi], [strings.Split],
    [textproto.CanonicalMIMEHeaderKey], [json.Marshal] on the two structs
    that are marshalled).

    Conventions.
    - Go [string]s are byte strings: [string] over [ascii].
    - Go [int] is the 64-bit signed integer of the amd64/arm64 targets the
      image is built for; it is a [Z] with the wrap-around written out.
    - [map[string][]string] ([http.Header]) and the process environment are
      [gmap string _].
    - A run-time panic (index out of range) is an explicit outcome; the
      net/http server recovers it and the request gets no answer.
    - What comes from outside the process (the answer of [client.Do], the
      result of decoding a body) is a parameter, [Net]. *)

From Stdlib Require Import ZArith String Ascii List Lia Bool DecimalString DecimalPos.
From stdpp Require Import base option strings gmap list.

Local Open Scope Z_scope.

(** ** Bytes *)

Definition byte_val (c : ascii) : Z := Z.of_N (N_of_ascii c).

Definition byte_of (z : Z) : ascii := ascii_of_N (Z.to_N (z mod 256)).

(** The double-quote character, code 34. *)
Definition dq : string := String (byte_of 34) EmptyString.

(** ** strconv *)

Module strconv.

Inductive NumError := ErrSyntax | ErrRange.

(** [strconv.IntSize] on a 64-bit target *)
Definition intSize : Z := 64.

Definition maxUint64 : Z := 2 ^ 64 - 1.

(** conversions to [uint64] and to [int]/[int64]: reduction modulo 2^64 *)
Definition to_uint64 (z : Z) : Z := z mod 2 ^ 64.
Definition to_int (z : Z) : Z := (z + 2 ^ 63) mod 2 ^ 64 - 2 ^ 63.

(** [lower(c)] of strconv: [c | ('x' - 'X')] *)
Definition lower (c : Z) : Z := Z.lor c 32.

(** The loop of [ParseUint(s, 10, 0)]: [n] is the accumulator,
    [cutoff = maxUint64/10 + 1], [maxVal = 1<<64 - 1]. A range error
    returns at once, before the rest of the string is looked at. *)
Fixpoint ParseUint_loop (s : string) (n : Z) : Z * option NumError :=
  match s with
  | EmptyString => (n, None)
  | String ch s' =>
      let c := byte_val ch in
      let base := 10 in
      let cutoff := maxUint64 / 10 + 1 in
      let maxVal := to_uint64 (Z.shiftl 1 intSize - 1) in
      let digit :=
        if (48 <=? c) && (c <=? 57) then Some (c - 48)
        else if (97 <=? lower c) && (lower c <=? 122)
             then Some (lower c - 97 + 10)
             else None in
      match digit with
      | None => (0, Some ErrSyntax)
      | Some d =>
          if base <=? d then (0, Some ErrSyntax)
          else if cutoff <=? n then (maxVal, Some ErrRange)
          else
            let n10 := to_uint64 (n * base) in
            let n1 := to_uint64 (n10 + d) in
            if (n1 <? n10) || (maxVal <? n1) then (maxVal, Some ErrRange)
            else ParseUint_loop s' n1
      end
  end.

Definition ParseUint (s : string) : Z * option NumError :=
  match s with
  | EmptyString => (0, Some ErrSyntax)
  | _ => ParseUint_loop s 0
  end.

(** [ParseInt(s, 10, 0)] *)
Definition ParseInt (s : string) : Z * option NumError :=
  match s with
  | EmptyString => (0, Some ErrSyntax)
  | String c0 rest =>
      let '(neg, s1) :=
        if Ascii.eqb c0 "+" then (false, rest)
        else if Ascii.eqb c0 "-" then (true, rest)
        else (false, s) in
      let '(un, err) := ParseUint s1 in
      match err with
      | Some ErrSyntax => (0, Some ErrSyntax)
      | _ =>
          let cutoff := Z.shiftl 1 (intSize - 1) in
          if negb neg && (cutoff <=? un) then (to_int (cutoff - 1), Some ErrRange)
          else if neg && (cutoff <? un) then (to_int (- cutoff), Some ErrRange)
          else
            let n := to_int un in
            (if neg then to_int (- n) else n, None)
      end
  end.

(** The digit loop of the fast path of [Atoi]: [None] is the syntax
    error. [ch -= '0'] is byte arithmetic. *)
Fixpoint Atoi_fast_loop (s : string) (n : Z) : option Z :=
  match s with
  | EmptyString => Some n
  | String ch s' =>
      let c := (byte_val ch - 48) mod 256 in
      if 9 <? c then None
      else Atoi_fast_loop s' (to_int (n * 10 + c))
  end.

(** [strconv.Atoi]: the value and the error, as Go returns both. *)
Definition Atoi (s : string) : Z * option NumError :=
  let sLen := Z.of_nat (String.length s) in
  if (0 <? sLen) && (sLen <? 19) then
    match s with
    | EmptyString => (0, Some ErrSyntax)
    | String c0 rest =>
        let signed := Ascii.eqb c0 "-" || Ascii.eqb c0 "+" in
        let s1 := if signed then rest else s in
        if signed && (Z.of_nat (String.length s1) <? 1) then (0, Some ErrSyntax)
        else
          match Atoi_fast_loop s1 0 with
          | None => (0, Some ErrSyntax)
          | Some n => (if Ascii.eqb c0 "-" then to_int (- n) else n, None)
          end
    end
  else
    let '(i64, err) := ParseInt s in (to_int i64, err).

End strconv.

(** ** strings *)

Module strings.

(** [strings.Split(s, sep)] for a separator [sep] of one byte: the
    pieces of [s] between the occurrences of [sep]; never empty. *)
Fixpoint Split (s : string) (sep : ascii) : list string :=
  match s with
  | EmptyString => [EmptyString]
  | String c s' =>
      if Ascii.eqb c sep then EmptyString :: Split s' sep
      else match Split s' sep with
           | cur :: rest => String c cur :: rest
           | [] => [String c EmptyString]
           end
  end.

End strings.

(** ** net/textproto *)

Module textproto.

(** [validHeaderFieldByte]: the token characters of RFC 7230 *)
Definition validHeaderFieldByte (c : ascii) : bool :=
  let b := byte_val c in
  ((48 <=? b) && (b <=? 57)) || ((65 <=? b) && (b <=? 90))
  || ((97 <=? b) && (b <=? 122))
  || existsb (Z.eqb b) [33; 35; 36; 37; 38; 39; 42; 43; 45; 46; 94; 95; 96; 124; 126].

Fixpoint all_bytes (f : ascii -> bool) (s : string) : bool :=
  match s with
  | EmptyString => true
  | String c s' => f c && all_bytes f s'
  end.

(** the second loop of [canonicalMIMEHeaderKey]: upper case at the start
    and after each dash, lower case elsewhere *)
Fixpoint canonicalize (upper : bool) (a : string) : string :=
  match a with
  | EmptyString => EmptyString
  | String ch a' =>
      let c := byte_val ch in
      let c :=
        if upper && (97 <=? c) && (c <=? 122) then c - 32
        else if negb upper && (65 <=? c) && (c <=? 90) then c + 32
        else c in
      String (byte_of c) (canonicalize (c =? 45) a')
  end.

(** [CanonicalMIMEHeaderKey]: a key with a byte that is not a token
    character is returned unchanged. *)
Definition CanonicalMIMEHeaderKey (s : string) : string :=
  if all_bytes validHeaderFieldByte s then canonicalize true s else s.

End textproto.

(** ** net/http: headers *)

Module http.

(** [http.Header], a [map[string][]string] *)
Abbreviation Header := (gmap string (list string)).

(** [h.Values(key)]: the slice stored under the canonical form of [key];
    the nil slice when there is none. *)
Definition Values (h : Header) (key : string) : list string :=
  default [] (h !! textproto.CanonicalMIMEHeaderKey key).

(** [h.Add(key, value)] *)
Definition Add (h : Header) (key value : string) : Header :=
  let key := textproto.CanonicalMIMEHeaderKey key in
  <[key := default [] (h !! key) ++ [value]]> h.

(** The header map of a request received by the net/http server: each
    field line [(name, value)] read from the connection is appended under
    the canonical form of its name ([textproto.Reader.ReadMIMEHeader]). *)
Definition ReadMIMEHeader (lines : list (string * string)) : Header :=
  foldl (fun h kv => Add h (fst kv) (snd kv)) ∅ lines.

(** [http.ResponseWriter]: the header map being built, the status line
    and header once written, and the body written so far. *)
Record ResponseWriter := {
  rw_header : Header;
  rw_sent : option (Z * Header);
  rw_body : string
}.

Definition newResponseWriter : ResponseWriter :=
  {| rw_header := ∅; rw_sent := None; rw_body := EmptyString |}.

Definition Header_Add (w : ResponseWriter) (key value : string) : ResponseWriter :=
  {| rw_header := Add (rw_header w) key value;
     rw_sent := rw_sent w; rw_body := rw_body w |}.

(** [w.WriteHeader(code)]: only the first call counts. *)
Definition WriteHeader (w : ResponseWriter) (code : Z) : ResponseWriter :=
  match rw_sent w with
  | Some _ => w
  | None => {| rw_header := rw_header w;
               rw_sent := Some (code, rw_header w);
               rw_body := rw_body w |}
  end.

(** [w.Write(data)]: writes the header with status 200 when it has not
    been written yet. *)
Definition Write (w : ResponseWriter) (data : string) : ResponseWriter :=
  let w := WriteHeader w 200 in
  {| rw_header := rw_header w; rw_sent := rw_sent w;
     rw_body := rw_body w +:+ data |}.

Definition StatusCode_of (w : ResponseWriter) : option Z := fst <$> rw_sent w.

Definition sent_values (w : ResponseWriter) (key : string) : list string :=
  match rw_sent w with
  | Some (_, h) => Values h key
  | None => []
  end.

End http.

(** ** encoding/json, for the values this program marshals *)

Module json.

Definition hex_digit (n : Z) : ascii :=
  if n <? 10 then byte_of (48 + n) else byte_of (87 + n).

(** One byte below 0x80 of a string value, with the HTML-safe escaping that
    [json.Marshal] applies: the quote and the backslash get a backslash,
    newline, carriage return and tab their short forms, the other control
    bytes and [<], [>], [&] the form \u00XX (Go before 1.22; later
    toolchains write \b and \f for 0x08 and 0x0C). *)
Definition encode_byte (ch : ascii) : string :=
  let c := byte_val ch in
  let bs := String (byte_of 92) EmptyString in
  if c =? 34 then bs +:+ dq
  else if c =? 92 then bs +:+ bs
  else if c =? 10 then bs +:+ "n"
  else if c =? 13 then bs +:+ "r"
  else if c =? 9 then bs +:+ "t"
  else if (c <? 32) || (c =? 60) || (c =? 62) || (c =? 38) then
    bs +:+ "u00" +:+ String (hex_digit (c / 16)) (String (hex_digit (c mod 16)) EmptyString)
  else String ch EmptyString.

(** [first] and [acceptRanges] of unicode/utf8 for a leading byte from 0x80
    up: the length of the sequence and the range of its second byte; [None]
    for a byte that cannot start a sequence. *)
Definition utf8_first (b : Z) : option (Z * Z * Z) :=
  if b <? 194 then None
  else if b <? 224 then Some (2, 128, 191)
  else if b =? 224 then Some (3, 160, 191)
  else if b =? 237 then Some (3, 128, 159)
  else if b <? 240 then Some (3, 128, 191)
  else if b =? 240 then Some (4, 144, 191)
  else if b <? 244 then Some (4, 128, 191)
  else if b =? 244 then Some (4, 128, 143)
  else None.

(** a continuation byte, 0x80 to 0xBF *)
Definition utf8_cont (c : ascii) : bool :=
  (128 <=? byte_val c) && (byte_val c <=? 191).

(** what is written for a byte that is not part of valid UTF-8 *)
Definition replacement : string := String (byte_of 92) "ufffd".

(** The bytes of a string value. Valid UTF-8 sequences are copied, except
    U+2028 and U+2029 (the bytes E2 80 A8 and E2 80 A9), which are written
    as the six characters backslash, u, 2, 0, 2, 8 or 9; a byte that does
    not start a valid sequence is written as backslash, u, f, f, f, d and
    decoding resumes at the next byte ([utf8.DecodeRuneInString]). *)
Fixpoint encode_bytes (s : string) : string :=
  match s with
  | EmptyString => EmptyString
  | String c0 s1 =>
      if byte_val c0 <? 128 then encode_byte c0 +:+ encode_bytes s1
      else
        let bad := replacement +:+ encode_bytes s1 in
        match utf8_first (byte_val c0), s1 with
        | Some (sz, lo, hi), String c1 s2 =>
            if (lo <=? byte_val c1) && (byte_val c1 <=? hi) then
              if sz =? 2 then String c0 (String c1 (encode_bytes s2))
              else
                match s2 with
                | String c2 s3 =>
                    if utf8_cont c2 then
                      if sz =? 3 then
                        if (byte_val c0 =? 226) && (byte_val c1 =? 128)
                           && ((byte_val c2 =? 168) || (byte_val c2 =? 169))
                        then String (byte_of 92) "u202"
                             +:+ String (hex_digit (byte_val c2 - 160)) (encode_bytes s3)
                        else String c0 (String c1 (String c2 (encode_bytes s3)))
                      else
                        match s3 with
                        | String c3 s4 =>
                            if utf8_cont c3
                            then String c0 (String c1 (String c2 (String c3 (encode_bytes s4))))
                            else bad
                        | EmptyString => bad
                        end
                    else bad
                | EmptyString => bad
                end
            else bad
        | _, _ => bad
        end
  end.

Definition encode_string (s : string) : string := dq +:+ encode_bytes s +:+ dq.

(** an [int] field: decimal, with a minus sign when negative *)
Definition encode_int (n : Z) : string :=
  DecimalString.NilZero.string_of_int (Z.to_int n).

(** a struct field [name: value], with the name taken from the json tag *)
Definition field (name value : string) : string := dq +:+ name +:+ dq +:+ ":" +:+ value.

Fixpoint join_fields (fs : list string) : string :=
  match fs with
  | [] => EmptyString
  | [f] => f
  | f :: fs' => f +:+ "," +:+ join_fields fs'
  end.

Definition object (fs : list string) : string := "{" +:+ join_fields fs +:+ "}".

End json.

(** ** The process: environment, standard output, panics *)

Inductive outcome (A : Type) : Type :=
  | Ret (a : A)
  | Panic (msg : string).
Arguments Ret {A} a.
Arguments Panic {A} msg.

(** What a call can read and change of the process: the environment
    (os.Getenv) and the lines printed (fmt.Println). *)
Record Proc := {
  environ : gmap string string;
  stdout : list string
}.

Definition M (A : Type) : Type := Proc -> outcome A * Proc.

#[global] Instance M_ret : MRet M := fun A a p => (Ret a, p).

#[global] Instance M_bind : MBind M := fun A B f m p =>
  match m p with
  | (Ret a, p') => f a p'
  | (Panic msg, p') => (Panic msg, p')
  end.

Definition panic {A : Type} (msg : string) : M A := fun p => (Panic msg, p).

(** [os.Getenv]: the empty string when the variable is not set *)
Definition Getenv (key : string) : M string :=
  fun p => (Ret (default EmptyString (environ p !! key)), p).

Definition Println (line : string) : M unit :=
  fun p => (Ret tt, {| environ := environ p; stdout := stdout p ++ [line] |}).

(** [l[i]] on a slice: a run-time panic when [i] is out of range *)
Definition index {A : Type} (l : list A) (i : Z) : M A :=
  if i <? 0 then panic "runtime error: index out of range"
  else match l !! Z.to_nat i with
       | Some x => mret x
       | None => panic "runtime error: index out of range"
       end.

(** ** The program *)

Definition incomingHeaders : list string := [
  "x-request-id";
  "x-ot-span-context";
  "x-datadog-trace-id";
  "x-datadog-parent-id";
  "x-datadog-sampling-priority";
  "traceparent";
  "tracestate";
  "x-cloud-trace-context";
  "grpc-trace-bin";
  "x-b3-traceid";
  "x-b3-spanid";
  "x-b3-parentspanid";
  "x-b3-sampled";
  "x-b3-flags";
  "end-user";
  "user-agent"
].

Record Details := {
  Id : Z;
  Author : string;
  Year : Z;
  Type_ : string;
  Pages : Z;
  Publisher : string;
  Language : string;
  ISBN_10 : string;
  ISBN_13 : string
}.

(** [Details{}], the zero value *)
Definition Details_zero : Details :=
  {| Id := 0; Author := ""; Year := 0; Type_ := ""; Pages := 0;
     Publisher := ""; Language := ""; ISBN_10 := ""; ISBN_13 := "" |}.

(** The anonymous struct [rec] that the upstream body is decoded into. *)
Module book.
Record IndustryIdentifier := {
  Type_ : string;
  Identifier : string
}.
Record VolumeInfo := {
  Language : string;
  PrintType : string;
  Authors : list string;
  Publisher : string;
  PageCount : Z;
  PublishedDate : string;
  IndustryIdentifiers : list IndustryIdentifier
}.
Record Item := { VolumeInfo_ : VolumeInfo }.
Record Rec := { Items : list Item }.
End book.

(** [json.Marshal] of a [*Details] and of the error and status structs *)
Definition Marshal_Details (d : Details) : string :=
  json.object [
    json.field "id" (json.encode_int (Id d));
    json.field "author" (json.encode_string (Author d));
    json.field "year" (json.encode_int (Year d));
    json.field "type" (json.encode_string (Type_ d));
    json.field "pages" (json.encode_int (Pages d));
    json.field "publisher" (json.encode_string (Publisher d));
    json.field "language" (json.encode_string (Language d));
    json.field "isbn-10" (json.encode_string (ISBN_10 d));
    json.field "isbn-13" (json.encode_string (ISBN_13 d))
  ].

Definition Marshal_Error (msg : string) : string :=
  json.object [json.field "error" (json.encode_string msg)].

Definition Marshal_Status (msg : string) : string :=
  json.object [json.field "status" (json.encode_string msg)].

Section Service.

(** [context.Context] is opaque to this program. *)
Variable Context : Type.

(** an inbound request, as far as the handlers look at it *)
Record Request := {
  URL_Path : string;
  Header : http.Header;
  req_Context : Context
}.

(** the outbound request handed to [client.Do] *)
Record OutRequest := {
  Method : string;
  URL : string;
  out_Context : Context
}.

Record Response := {
  StatusCode : Z;
  Status : string;
  Body : string
}.

(** What the program gets from outside: whether [http.NewRequest]
    rejects the method and URL, what [client.Do] returns (an error text
    or a response; the client has certificate verification off and a
    timeout of five seconds), and what [Decode] leaves in [rec] for a body
    together with its error, if any. *)
Record Net := {
  NewRequest_fails : string -> string -> bool;
  Do : OutRequest -> string + Response;
  Decode : string -> book.Rec * option string
}.

Variable net : Net.

Definition getForwardHeaders (req : Request) : http.Header :=
  foldl (fun header item =>
           let values := http.Values (Header req) item in
           if 0 <? Z.of_nat (length values) then <[item := values]> header
           else header)
        ∅ incomingHeaders.

Definition fetchDetailsFromExternalService
    (isbn : string) (id : Z) (headers : http.Header) (ctx : Context) : M Details :=
  e ← Getenv "DO_NOT_ENCRYPT";
  let proto := if String.eqb e "true" then "http" else "https" in
  let uri := proto +:+ "://www.googleapis.com/books/v1/volumes?q=isbn:" +:+ isbn in
  if NewRequest_fails net "GET" uri then mret Details_zero
  else
    let req := {| Method := "GET"; URL := uri; out_Context := ctx |} in
    match Do net req with
    | inl err => _ ← Println err; mret Details_zero
    | inr res =>
        if negb (StatusCode res =? 200) then
          _ ← Println (Status res); mret Details_zero
        else
          let rec := fst (Decode net (Body res)) in
          item ← index (book.Items rec) 0;
          let book := book.VolumeInfo_ item in
          let printType :=
            if String.eqb (book.PrintType book) "BOOK" then "paperback" else "unknown" in
          let language :=
            if String.eqb (book.Language book) "en" then "English" else "unknown" in
          let isbnIdentifier : gmap string string :=
            foldl (fun m item => <[book.Type_ item := book.Identifier item]> m)
                  ∅ (book.IndustryIdentifiers book) in
          let year := fst (strconv.Atoi (book.PublishedDate book)) in
          author ← index (book.Authors book) 0;
          mret {| Id := id;
                  Author := author;
                  Year := year;
                  Type_ := printType;
                  Pages := book.PageCount book;
                  Publisher := book.Publisher book;
                  Language := language;
                  ISBN_10 := default "" (isbnIdentifier !! "ISBN_10");
                  ISBN_13 := default "" (isbnIdentifier !! "ISBN_13") |}
    end.

Definition getBookDetails (id : Z) (headers : http.Header) (ctx : Context) : M Details :=
  e ← Getenv "ENABLE_EXTERNAL_BOOK_SERVICE";
  if String.eqb e "true" then
    let isbn := "0486424618" in
    fetchDetailsFromExternalService isbn id headers ctx
  else
    mret {| Id := id;
            Author := "William Shakespeare";
            Year := 1595;
            Type_ := "paperback";
            Pages := 200;
            Publisher := "PublisherA";
            Language := "English";
            ISBN_10 := "1234567890";
            ISBN_13 := "123-1234567890" |}.

Definition details (w : http.ResponseWriter) (req : Request) : M http.ResponseWriter :=
  let pathParts := strings.Split (URL_Path req) "/" in
  last ← index pathParts (Z.of_nat (length pathParts) - 1);
  let '(id, err) := strconv.Atoi last in
  let headers := getForwardHeaders req in
  let w := http.Header_Add w "Content-Type" "application/json" in
  match err with
  | Some _ =>
      let data := Marshal_Error "please provide numeric product id" in
      let w := http.WriteHeader w 400 in
      mret (http.Write w data)
  | None =>
      d ← getBookDetails id headers (req_Context req);
      let data := Marshal_Details d in
      mret (http.Write w data)
  end.

Definition health (w : http.ResponseWriter) (req : Request) : M http.ResponseWriter :=
  let data := Marshal_Status "Details is healthy" in
  let w := http.Header_Add w "Content-Type" "application/json" in
  let w := http.WriteHeader w 200 in
  mret (http.Write w data).

End Service.

Arguments URL_Path {Context} _.
Arguments Header {Context} _.
Arguments req_Context {Context} _.
Arguments Method {Context} _.
Arguments URL {Context} _.
Arguments out_Context {Context} _.
Arguments NewRequest_fails {Context} _ _ _.
Arguments Do {Context} _ _.
Arguments Decode {Context} _ _.
Arguments getForwardHeaders {Context} req.
Arguments fetchDetailsFromExternalService {Context} net isbn id headers ctx _.
Arguments getBookDetails {Context} net id headers ctx _.
Arguments details {Context} net w req _.
Arguments health {Context} w req _.

(** ** Notions of the specification: decimal integers, letter case *)

(** The written form of an integer, as the specification speaks of it: an
    optional sign, then one or more decimal digits. These definitions do not
    come from the code; the code is compared with them. *)
Module decimal.

Definition is_digit (c : ascii) : bool :=
  (48 <=? byte_val c) && (byte_val c <=? 57).

(** the value of a digit string read after the digits worth [acc] *)
Fixpoint digits_value (acc : Z) (s : string) : Z :=
  match s with
  | EmptyString => acc
  | String c s' => digits_value (acc * 10 + (byte_val c - 48)) s'
  end.

(** the longest prefix of digits, and what follows it *)
Fixpoint span_digits (s : string) : string * string :=
  match s with
  | EmptyString => (EmptyString, EmptyString)
  | String c s' =>
      if is_digit c then
        let '(pre, rest) := span_digits s' in (String c pre, rest)
      else (EmptyString, s)
  end.

Definition strip_sign (s : string) : bool * string :=
  match s with
  | EmptyString => (false, EmptyString)
  | String c rest =>
      if Ascii.eqb c "-" then (true, rest)
      else if Ascii.eqb c "+" then (false, rest)
      else (false, s)
  end.

Definition is_empty (s : string) : bool :=
  match s with EmptyString => true | _ => false end.

(** an optional sign followed by one or more digits, and nothing else *)
Definition syntax (s : string) : bool :=
  let '(pre, rest) := span_digits (snd (strip_sign s)) in
  negb (is_empty pre) && is_empty rest.

(** the integer the digits after the sign denote, negated under [-] *)
Definition value (s : string) : Z :=
  let '(neg, body) := strip_sign s in
  let v := digits_value 0 (fst (span_digits body)) in
  if neg then - v else v.

(** a signed decimal integer that an [int] can hold *)
Definition int_literal (s : string) : option Z :=
  if syntax s && (- 2 ^ 63 <=? value s) && (value s <? 2 ^ 63)
  then Some (value s) else None.

(** the number in front of a string: the value of its leading digits *)
Definition leading_number (s : string) : Z :=
  digits_value 0 (fst (span_digits s)).

End decimal.

(** ASCII letter case *)
Module fold.

Definition to_lower (c : ascii) : ascii :=
  let b := byte_val c in
  if (65 <=? b) && (b <=? 90) then byte_of (b + 32) else c.

Fixpoint lower (s : string) : string :=
  match s with
  | EmptyString => EmptyString
  | String c s' => String (to_lower c) (lower s')
  end.

(** equality of header names up to letter case *)
Definition eq_fold (a b : string) : bool := String.eqb (lower a) (lower b).

End fold.

(** what [Atoi] returns, case by case *)
Definition Atoi_cases (s : string) : Z * option strconv.NumError :=
  let '(neg, body) := decimal.strip_sign s in
  let '(pre, rest) := decimal.span_digits body in
  let v := decimal.digits_value 0 pre in
  if decimal.is_empty s then (0, Some strconv.ErrSyntax)
  else if 2 ^ 64 <=? v then
    (if neg then - 2 ^ 63 else 2 ^ 63 - 1, Some strconv.ErrRange)
  else if decimal.is_empty pre || negb (decimal.is_empty rest) then
    (0, Some strconv.ErrSyntax)
  else if negb neg && (2 ^ 63 <=? v) then (2 ^ 63 - 1, Some strconv.ErrRange)
  else if neg && (2 ^ 63 <? v) then (- 2 ^ 63, Some strconv.ErrRange)
  else (if neg then - v else v, None).

(** the Details of an outcome, if there is one *)
Definition returned {A : Type} (r : outcome A * Proc) : option A :=
  match fst r with
  | Ret a => Some a
  | Panic _ => None
  end.

(** ** Definitions used in the statements and proofs *)

(** every byte, for checks by enumeration *)
Definition every_byte : list ascii :=
  List.map (fun n => byte_of (Z.of_nat n)) (List.seq 0 256).

(** one step of [canonicalize]: the byte written *)
Definition canon_byte (upper : bool) (ch : ascii) : Z :=
  let c := byte_val ch in
  if upper && (97 <=? c) && (c <=? 122) then c - 32
  else if negb upper && (65 <=? c) && (c <=? 90) then c + 32
  else c.

(** the values of the field lines named [name] up to letter case, in the
    order of the lines *)
Definition fields_named (name : string) (lines : list (string * string)) : list string :=
  List.map snd (List.filter (fun kv => fold.eq_fold (fst kv) name) lines).

(** a slice as a map entry: no entry for the empty slice *)
Definition entry (vs : list string) : option (list string) :=
  match vs with
  | [] => None
  | _ => Some vs
  end.

(** the values of the field lines whose name has the canonical form [key] *)
Definition values_under (key : string) (lines : list (string * string)) : list string :=
  List.map snd
    (List.filter (fun kv => String.eqb (textproto.CanonicalMIMEHeaderKey (fst kv)) key) lines).

(** every key of the map is its own canonical form, as in the header map
    of a request that the net/http server has read *)
Definition canonical_keys (h : http.Header) : Prop :=
  forall k vs, h !! k = Some vs -> textproto.CanonicalMIMEHeaderKey k = k.

(** the request that [fetchDetailsFromExternalService] hands to [client.Do]
    in the process state [p] *)
Definition lookup_request {Ctx : Type} (p : Proc) (isbn : string) (ctx : Ctx) : OutRequest Ctx :=
  let proto :=
    if String.eqb (default EmptyString (environ p !! "DO_NOT_ENCRYPT")) "true"
    then "http" else "https" in
  {| Method := "GET";
     URL := proto +:+ "://www.googleapis.com/books/v1/volumes?q=isbn:" +:+ isbn;
     out_Context := ctx |}.

(** the record built from a decoded volume, as the last statement of
    [fetchDetailsFromExternalService] builds it *)
Definition Details_of_volume (id : Z) (author : string) (v : book.VolumeInfo) : Details :=
  {| Id := id;
     Author := author;
     Year := fst (strconv.Atoi (book.PublishedDate v));
     Type_ := if String.eqb (book.PrintType v) "BOOK" then "paperback" else "unknown";
     Pages := book.PageCount v;
     Publisher := book.Publisher v;
     Language := if String.eqb (book.Language v) "en" then "English" else "unknown";
     ISBN_10 := default "" (foldl (fun m item => <[book.Type_ item := book.Identifier item]> m)
                              (∅ : gmap string string) (book.IndustryIdentifiers v) !! "ISBN_10");
     ISBN_13 := default "" (foldl (fun m item => <[book.Type_ item := book.Identifier item]> m)
                              (∅ : gmap string string) (book.IndustryIdentifiers v) !! "ISBN_13") |}.

Definition static_Details (id : Z) : Details :=
  {| Id := id;
     Author := "William Shakespeare";
     Year := 1595;
     Type_ := "paperback";
     Pages := 200;
     Publisher := "PublisherA";
     Language := "English";
     ISBN_10 := "1234567890";
     ISBN_13 := "123-1234567890" |}.

Ltac run :=
  unfold index, Getenv, Println, panic, mbind, mret, M_bind, M_ret in *; cbn beta iota in *.

(** [d] with its [Id] replaced *)
Definition set_Id (n : Z) (d : Details) : Details :=
  {| Id := n; Author := Author d; Year := Year d; Type_ := Type_ d;
     Pages := Pages d; Publisher := Publisher d; Language := Language d;
     ISBN_10 := ISBN_10 d; ISBN_13 := ISBN_13 d |}.

(** a result with the [Id] of its record blanked *)
Definition without_Id (r : outcome Details * Proc) : outcome Details * Proc :=
  (match fst r with
   | Ret d => Ret (set_Id 0 d)
   | Panic msg => Panic msg
   end, snd r).

(** [os.Getenv] as a function of the process state *)
Definition env (p : Proc) (key : string) : string :=
  default EmptyString (environ p !! key).

(** ** Sample surroundings: environments, upstreams, requests *)

Definition quiet (e : gmap string string) : Proc := {| environ := e; stdout := [] |}.

Definition external_on : gmap string string :=
  {[ "ENABLE_EXTERNAL_BOOK_SERVICE" := "true" ]}.

(** an upstream that always gives the same answer and decoded body *)
Definition fixed_net (answer : string + Response) (rec : book.Rec) : Net unit :=
  {| NewRequest_fails := fun _ _ => false;
     Do := fun _ => answer;
     Decode := fun _ => (rec, None) |}.

Definition ok_response : Response :=
  {| StatusCode := 200; Status := "200 OK"; Body := "{}" |}.

Definition refused : Net unit :=
  fixed_net (inl "dial tcp: connect: connection refused") {| book.Items := [] |}.

Definition no_items : Net unit :=
  fixed_net (inr ok_response) {| book.Items := [] |}.

Definition sample_volume (date : string) : book.VolumeInfo :=
  {| book.Language := "en";
     book.PrintType := "BOOK";
     book.Authors := ["William Shakespeare"];
     book.Publisher := "Courier Corporation";
     book.PageCount := 80;
     book.PublishedDate := date;
     book.IndustryIdentifiers :=
       [ {| book.Type_ := "ISBN_10"; book.Identifier := "0486424618" |};
         {| book.Type_ := "ISBN_13"; book.Identifier := "9780486424613" |} ] |}.

Definition one_volume (v : book.VolumeInfo) : Net unit :=
  fixed_net (inr ok_response) {| book.Items := [ {| book.VolumeInfo_ := v |} ] |}.

(** Path segments, as the specification speaks of them. *)
Module path.

Fixpoint has_slash (s : string) : bool :=
  match s with
  | EmptyString => false
  | String c s' => Ascii.eqb c "/" || has_slash s'
  end.

(** what follows the last slash; the whole path when it has none *)
Fixpoint trailing_segment (s : string) : string :=
  match s with
  | EmptyString => EmptyString
  | String c s' =>
      if has_slash s' then trailing_segment s'
      else if Ascii.eqb c "/" then s' else s
  end.

End path.

(** the body of the 400 answer, byte for byte *)
Definition error_body : string :=
  "{" +:+ dq +:+ "error" +:+ dq +:+ ":" +:+ dq
  +:+ "please provide numeric product id" +:+ dq +:+ "}".

(** a response writer nothing has been written to, with no content type
    set *)
Definition untouched (w : http.ResponseWriter) : Prop :=
  http.rw_sent w = None /\ http.rw_body w = EmptyString
  /\ http.Values (http.rw_header w) "Content-Type" = [].

Definition request_for (path : string) (lines : list (string * string)) : Request unit :=
  {| URL_Path := path; Header := http.ReadMIMEHeader lines; req_Context := tt |}.

Definition sample_lines : list (string * string) :=
  [ ("X-Request-ID", "abc"); ("user-agent", "curl/8.0"); ("Accept", "*/*");
    ("User-Agent", "second"); ("Cookie", "k=v") ].

(** ** Definitions for the further properties *)

(** the value of a [Decimal.uint] read after the digits worth [acc] *)
Fixpoint uint_value (acc : Z) (u : Decimal.uint) : Z :=
  match u with
  | Decimal.Nil => acc
  | Decimal.D0 u => uint_value (acc * 10 + 0) u
  | Decimal.D1 u => uint_value (acc * 10 + 1) u
  | Decimal.D2 u => uint_value (acc * 10 + 2) u
  | Decimal.D3 u => uint_value (acc * 10 + 3) u
  | Decimal.D4 u => uint_value (acc * 10 + 4) u
  | Decimal.D5 u => uint_value (acc * 10 + 5) u
  | Decimal.D6 u => uint_value (acc * 10 + 6) u
  | Decimal.D7 u => uint_value (acc * 10 + 7) u
  | Decimal.D8 u => uint_value (acc * 10 + 8) u
  | Decimal.D9 u => uint_value (acc * 10 + 9) u
  end.

(** the body of the health answer, byte for byte *)
Definition status_body : string :=
  "{" +:+ dq +:+ "status" +:+ dq +:+ ":" +:+ dq +:+ "Details is healthy" +:+ dq +:+ "}".

(** the identifier of the last entry of type [ty], if there is one *)
Fixpoint last_identifier (ty : string) (l : list book.IndustryIdentifier) : option string :=
  match l with
  | [] => None
  | item :: l' =>
      match last_identifier ty l' with
      | Some x => Some x
      | None => if String.eqb (book.Type_ item) ty then Some (book.Identifier item) else None
      end
  end.

(** an upstream answer that [fetchDetailsFromExternalService] turns into a
    panic: status 200 and a decoded body without items, or whose first item
    has no authors *)
Definition unusable_answer {Ctx : Type} (net : Net Ctx) (res : Response) : Prop :=
  StatusCode res = 200
  /\ (book.Items (fst (Decode net (Body res))) = []
      \/ exists item items,
          book.Items (fst (Decode net (Body res))) = item :: items
          /\ book.Authors (book.VolumeInfo_ item) = []).

Definition duplicate_isbn_volume : book.VolumeInfo :=
  {| book.Language := "fr";
     book.PrintType := "MAGAZINE";
     book.Authors := ["First Author"; "Second Author"];
     book.Publisher := "P";
     book.PageCount := 12;
     book.PublishedDate := "2002";
     book.IndustryIdentifiers :=
       [ {| book.Type_ := "ISBN_10"; book.Identifier := "1111111111" |};
         {| book.Type_ := "OTHER"; book.Identifier := "x" |};
         {| book.Type_ := "ISBN_10"; book.Identifier := "2222222222" |} ] |}.

(** the writer of a result; the new writer when the handler panicked *)
Definition answer_of (r : outcome http.ResponseWriter * Proc) : http.ResponseWriter :=
  match fst r with
  | Ret w => w
  | Panic _ => http.newResponseWriter
  end.

Definition allow_listed_lines : list (string * string) :=
  [ ("X-Request-ID", "abc"); ("user-agent", "curl/8.0"); ("User-Agent", "second") ].

(** the start of the JSON of a record, up to and including its id member *)
Definition id_member (n : Z) : string :=
  "{" +:+ dq +:+ "id" +:+ dq +:+ ":" +:+ json.encode_int n +:+ ",".

(** an upstream given by its answer to each URL and by the decoding of each
    body *)
Definition net_of_answers (answers : string -> string + Response)
    (decode : string -> book.Rec) : Net unit :=
  {| NewRequest_fails := fun _ _ => false;
     Do := fun request => answers (URL request);
     Decode := fun body => (decode body, None) |}.

(** an upstream that knows one URL, the https lookup of 0486424618, and
    answers it with one volume; other hosts do not resolve, other bodies
    hold no items *)
Definition one_book_net : Net unit :=
  net_of_answers
    (fun url =>
       if String.eqb url "https://www.googleapis.com/books/v1/volumes?q=isbn:0486424618"
       then inr ok_response else inl "dial tcp: lookup: no such host")
    (fun body =>
       if String.eqb body "{}"
       then {| book.Items := [ {| book.VolumeInfo_ := sample_volume "1595" |} ] |}
       else {| book.Items := [] |}).

(** an upstream that agrees with [one_book_net] on that URL and its body,
    and differs everywhere else *)
Definition other_book_net : Net unit :=
  net_of_answers
    (fun url =>
       if String.eqb url "https://www.googleapis.com/books/v1/volumes?q=isbn:0486424618"
       then inr ok_response
       else inr {| StatusCode := 500; Status := "500 Internal Server Error"; Body := "" |})
    (fun body =>
       if String.eqb body "{}"
       then {| book.Items := [ {| book.VolumeInfo_ := sample_volume "1595" |} ] |}
       else {| book.Items := [ {| book.VolumeInfo_ := duplicate_isbn_volume |} ] |}).

(** an upstream whose error tells the scheme of the URL it was asked for *)
Definition scheme_net : Net unit :=
  net_of_answers
    (fun url => if String.prefix "http://" url then inl "plain" else inl "tls")
    (fun _ => {| book.Items := [] |}).

Definition both_toggles_on : gmap string string :=
  {[ "ENABLE_EXTERNAL_BOOK_SERVICE" := "true"; "DO_NOT_ENCRYPT" := "true" ]}.

(** * Checks on concrete inputs *)

Example Atoi_42 : strconv.Atoi "42" = (42, None).
Proof. reflexivity. Qed.
Example Atoi_neg5 : strconv.Atoi "-5" = (-5, None).
Proof. reflexivity. Qed.
Example Atoi_date : strconv.Atoi "1595-05-01" = (0, Some strconv.ErrSyntax).
Proof. reflexivity. Qed.
Example Atoi_big : strconv.Atoi "99999999999999999999" = (2^63 - 1, Some strconv.ErrRange).
Proof. vm_compute. reflexivity. Qed.
Example Atoi_min : strconv.Atoi "-9223372036854775808" = (- 2^63, None).
Proof. vm_compute. reflexivity. Qed.
Example Atoi_big_tail : strconv.Atoi "99999999999999999999-01" = (2^63 - 1, Some strconv.ErrRange).
Proof. vm_compute. reflexivity. Qed.
Example Atoi_empty : strconv.Atoi "" = (0, Some strconv.ErrSyntax).
Proof. reflexivity. Qed.
Example Atoi_plus : strconv.Atoi "+" = (0, Some strconv.ErrSyntax).
Proof. reflexivity. Qed.

(** * Facts about the library functions *)

(** ** Facts about bytes *)

Lemma byte_val_range (c : ascii) : 0 <= byte_val c < 256.
Proof.
  unfold byte_val. pose proof (N_ascii_bounded c) as H. lia.
Qed.

Lemma byte_of_val (c : ascii) : byte_of (byte_val c) = c.
Proof.
  unfold byte_of, byte_val. pose proof (N_ascii_bounded c) as H.
  rewrite Z.mod_small by lia. rewrite N2Z.id. apply ascii_N_embedding.
Qed.

Lemma byte_val_of (z : Z) : 0 <= z < 256 -> byte_val (byte_of z) = z.
Proof.
  intros H. unfold byte_of, byte_val. rewrite Z.mod_small by lia.
  rewrite N_ascii_embedding by lia. lia.
Qed.

Lemma byte_val_inj (c d : ascii) : byte_val c = byte_val d -> c = d.
Proof.
  intros H. rewrite <- (byte_of_val c), <- (byte_of_val d). now rewrite H.
Qed.

Module strconv_facts.
Import strconv decimal.

Lemma to_int_small z : - 2 ^ 63 <= z < 2 ^ 63 -> to_int z = z.
Proof. intros H. unfold to_int. rewrite Z.mod_small; lia. Qed.

Lemma to_uint64_small z : 0 <= z < 2 ^ 64 -> to_uint64 z = z.
Proof. intros H. unfold to_uint64. now rewrite Z.mod_small. Qed.

Lemma is_digit_spec c : is_digit c = true <-> 48 <= byte_val c <= 57.
Proof. unfold is_digit. lia. Qed.

Lemma digits_value_ge s : forall n,
  0 <= n -> fst (span_digits s) = s -> n <= digits_value n s.
Proof.
  induction s as [|c s IH]; intros n Hn Hs; simpl in *; [lia|].
  destruct (is_digit c) eqn:Hc; [|discriminate].
  destruct (span_digits s) as [pre rest] eqn:Hsp. simpl in Hs.
  injection Hs as Hs. apply is_digit_spec in Hc.
  specialize (IH (n * 10 + (byte_val c - 48))). 
  assert (n <= n * 10 + (byte_val c - 48)) by lia.
  etransitivity; [eassumption|]. apply IH; [lia|]. simpl. congruence.
Qed.

Lemma span_digits_pre s : fst (span_digits (fst (span_digits s))) = fst (span_digits s).
Proof.
  induction s as [|c s IH]; simpl; [reflexivity|].
  destruct (is_digit c) eqn:Hc; [|reflexivity].
  destruct (span_digits s) as [pre rest]. simpl in *. rewrite Hc.
  destruct (span_digits pre) as [pre' rest'] . simpl in *. congruence.
Qed.

Lemma digits_value_bound s : forall n,
  0 <= n -> fst (span_digits s) = s ->
  digits_value n s + 1 <= (n + 1) * 10 ^ Z.of_nat (String.length s).
Proof.
  induction s as [|c s IH]; intros n Hn Hs.
  - simpl. lia.
  - simpl in Hs. destruct (is_digit c) eqn:Hc; [|discriminate].
    destruct (span_digits s) as [pre rest] eqn:Hsp. simpl in Hs.
    injection Hs as Hs. apply is_digit_spec in Hc.
    cbn [digits_value String.length].
    rewrite Nat2Z.inj_succ, Z.pow_succ_r by lia.
    specialize (IH (n * 10 + (byte_val c - 48))).
    etransitivity; [apply IH; [lia | simpl; congruence]|].
    assert (0 < 10 ^ Z.of_nat (String.length s)) by (apply Z.pow_pos_nonneg; lia).
    nia.
Qed.

Lemma span_digits_length s :
  (String.length (fst (span_digits s)) <= String.length s)%nat.
Proof.
  induction s as [|c s IH]; simpl; [lia|].
  destruct (is_digit c); simpl; [|lia].
  destruct (span_digits s); simpl in *. lia.
Qed.

(** The loop of [ParseUint] on an accumulator below 2^64. *)
Lemma ParseUint_loop_cases s : forall n,
  0 <= n < 2 ^ 64 ->
  ParseUint_loop s n =
    let '(pre, rest) := span_digits s in
    if 2 ^ 64 <=? digits_value n pre then (2 ^ 64 - 1, Some ErrRange)
    else if is_empty rest then (digits_value n pre, None)
    else (0, Some ErrSyntax).
Proof.
  induction s as [|c s IH]; intros n Hn.
  - simpl. destruct (Z.leb_spec (2 ^ 64) n); [lia | reflexivity].
  - cbn [ParseUint_loop span_digits]. cbv zeta.
    pose proof (byte_val_range c) as Hb.
    unfold is_digit.
    destruct ((48 <=? byte_val c) && (byte_val c <=? 57)) eqn:Hd.
    + assert (Hc : 48 <= byte_val c <= 57) by lia.
      destruct (Z.leb_spec 10 (byte_val c - 48)); [lia|].
      destruct (span_digits s) as [pre rest] eqn:Hsp.
      assert (Hpre : fst (span_digits pre) = pre).
      { pose proof (span_digits_pre s) as E. now rewrite Hsp in E. }
      cbn [digits_value].
      change (maxUint64 / 10 + 1) with 1844674407370955162.
      change (to_uint64 (Z.shiftl 1 intSize - 1)) with (2 ^ 64 - 1).
      destruct (Z.leb_spec 1844674407370955162 n) as [Hcut|Hcut].
      * pose proof (digits_value_ge pre (n * 10 + (byte_val c - 48))
                      ltac:(lia) Hpre) as Hge.
        destruct (Z.leb_spec (2 ^ 64) (digits_value (n * 10 + (byte_val c - 48)) pre));
          [reflexivity | lia].
      * rewrite (to_uint64_small (n * 10)) by lia.
        destruct (Z.lt_ge_cases (n * 10 + (byte_val c - 48)) (2 ^ 64)) as [Hs|Hs].
        -- rewrite to_uint64_small by lia.
           destruct (Z.ltb_spec (n * 10 + (byte_val c - 48)) (n * 10)); [lia|].
           destruct (Z.ltb_spec (2 ^ 64 - 1) (n * 10 + (byte_val c - 48))); [lia|].
           cbn [orb]. rewrite IH by lia. reflexivity.
        -- assert (Hw : to_uint64 (n * 10 + (byte_val c - 48))
                       = n * 10 + (byte_val c - 48) - 2 ^ 64).
           { unfold to_uint64.
             rewrite <- (Z.mod_add _ (-1)) by lia.
             rewrite Z.mod_small; lia. }
           rewrite Hw.
           destruct (Z.ltb_spec (n * 10 + (byte_val c - 48) - 2 ^ 64) (n * 10)); [|lia].
           cbn [orb].
           pose proof (digits_value_ge pre (n * 10 + (byte_val c - 48))
                         ltac:(lia) Hpre) as Hge.
           destruct (Z.leb_spec (2 ^ 64) (digits_value (n * 10 + (byte_val c - 48)) pre));
             [reflexivity | lia].
    + cbn [digits_value is_empty].
      destruct (Z.leb_spec (2 ^ 64) n); [lia|].
      destruct ((97 <=? lower (byte_val c)) && (lower (byte_val c) <=? 122)) eqn:Hl;
        [|reflexivity].
      destruct (Z.leb_spec 10 (lower (byte_val c) - 97 + 10)); [reflexivity | lia].
Qed.

(** The fast loop of [Atoi] while the accumulator cannot overflow. *)
Lemma Atoi_fast_loop_cases s : forall n,
  0 <= n -> (n + 1) * 10 ^ Z.of_nat (String.length s) <= 2 ^ 63 ->
  Atoi_fast_loop s n =
    let '(pre, rest) := span_digits s in
    if is_empty rest then Some (digits_value n pre) else None.
Proof.
  induction s as [|c s IH]; intros n Hn Hb; [reflexivity|].
  cbn [Atoi_fast_loop span_digits]. cbv zeta.
  pose proof (byte_val_range c) as Hc.
  cbn [String.length] in Hb. rewrite Nat2Z.inj_succ, Z.pow_succ_r in Hb by lia.
  assert (Hp : 0 < 10 ^ Z.of_nat (String.length s)) by (apply Z.pow_pos_nonneg; lia).
  unfold is_digit.
  destruct ((48 <=? byte_val c) && (byte_val c <=? 57)) eqn:Hd.
  - rewrite Z.mod_small by lia.
    destruct (Z.ltb_spec 9 (byte_val c - 48)); [lia|].
    rewrite to_int_small by nia.
    rewrite IH by nia.
    destruct (span_digits s) as [pre rest]. reflexivity.
  - cbn [is_empty].
    destruct (Z.lt_ge_cases (byte_val c) 48).
    + rewrite <- (Z.mod_add _ 1) by lia. rewrite Z.mod_small by lia.
      destruct (Z.ltb_spec 9 (byte_val c - 48 + 1 * 256)); [reflexivity | lia].
    + rewrite Z.mod_small by lia.
      destruct (Z.ltb_spec 9 (byte_val c - 48)); [reflexivity | lia].
Qed.

Lemma span_digits_all s pre :
  span_digits s = (pre, EmptyString) -> pre = s.
Proof.
  revert pre. induction s as [|c s IH]; intros pre H; simpl in H.
  - congruence.
  - destruct (is_digit c); [|discriminate].
    destruct (span_digits s) as [p r]. injection H as <- ->.
    f_equal. now apply IH.
Qed.

Lemma span_digits_fst s pre rest :
  span_digits s = (pre, rest) -> fst (span_digits pre) = pre.
Proof. intros H. pose proof (span_digits_pre s) as E. now rewrite H in E. Qed.

Lemma ParseUint_cases s :
  ParseUint s =
    let '(pre, rest) := span_digits s in
    if 2 ^ 64 <=? digits_value 0 pre then (2 ^ 64 - 1, Some ErrRange)
    else if is_empty pre || negb (is_empty rest) then (0, Some ErrSyntax)
    else (digits_value 0 pre, None).
Proof.
  destruct s as [|c s]; [reflexivity|].
  unfold ParseUint. rewrite ParseUint_loop_cases by lia.
  destruct (span_digits (String c s)) as [pre rest] eqn:Hsp.
  destruct (2 ^ 64 <=? digits_value 0 pre); [reflexivity|].
  destruct rest as [|r rest].
  - apply span_digits_all in Hsp. subst pre. reflexivity.
  - cbn [is_empty negb]. now rewrite orb_true_r.
Qed.

Lemma ParseInt_cases s : ParseInt s = Atoi_cases s.
Proof.
  destruct s as [|c0 rest]; [reflexivity|].
  unfold ParseInt, Atoi_cases, strip_sign.
  assert (Hsign :
    (if Ascii.eqb c0 "+" then (false, rest)
     else if Ascii.eqb c0 "-" then (true, rest) else (false, String c0 rest))
    = (if Ascii.eqb c0 "-" then (true, rest)
       else if Ascii.eqb c0 "+" then (false, rest) else (false, String c0 rest))).
  { destruct (Ascii.eqb_spec c0 "+") as [->|]; [reflexivity|].
    destruct (Ascii.eqb c0 "-"); reflexivity. }
  rewrite Hsign. clear Hsign.
  set (sg := if Ascii.eqb c0 "-" then (true, rest)
             else if Ascii.eqb c0 "+" then (false, rest)
             else (false, String c0 rest)).
  destruct sg as [neg body]. rewrite ParseUint_cases.
  destruct (span_digits body) as [pre tl] eqn:Hsp.
  pose proof (span_digits_fst _ _ _ Hsp) as Hpre.
  pose proof (digits_value_ge pre 0 ltac:(lia) Hpre) as Hge.
  cbn [is_empty].
  change (Z.shiftl 1 (intSize - 1)) with (2 ^ 63).
  destruct (Z.leb_spec (2 ^ 64) (digits_value 0 pre)) as [Hr|Hr].
  - destruct neg; cbn [negb andb].
    + destruct (Z.ltb_spec (2 ^ 63) (2 ^ 64 - 1)); [|lia].
      now rewrite to_int_small by lia.
    + destruct (Z.leb_spec (2 ^ 63) (2 ^ 64 - 1)); [|lia].
      now rewrite to_int_small by lia.
  - destruct (is_empty pre || negb (is_empty tl)); [reflexivity|].
    destruct neg; cbn [negb andb].
    + destruct (Z.ltb_spec (2 ^ 63) (digits_value 0 pre)).
      * now rewrite to_int_small by lia.
      * f_equal.
        destruct (Z.eq_dec (digits_value 0 pre) (2 ^ 63)) as [->|]; [reflexivity|].
        rewrite (to_int_small (digits_value 0 pre)) by lia.
        apply to_int_small. lia.
    + destruct (Z.leb_spec (2 ^ 63) (digits_value 0 pre)).
      * now rewrite to_int_small by lia.
      * now rewrite to_int_small by lia.
Qed.

Lemma Atoi_cases_int s : to_int (fst (Atoi_cases s)) = fst (Atoi_cases s).
Proof.
  unfold Atoi_cases.
  destruct (strip_sign s) as [neg body].
  destruct (span_digits body) as [pre tl] eqn:Hsp.
  pose proof (span_digits_fst _ _ _ Hsp) as Hpre.
  pose proof (digits_value_ge pre 0 ltac:(lia) Hpre) as Hge.
  repeat match goal with
         | |- context [if ?b then _ else _] =>
             lazymatch b with
             | Z.leb ?a ?b => destruct (Z.leb_spec a b)
             | Z.ltb ?a ?b => destruct (Z.ltb_spec a b)
             | _ => destruct b eqn:?
             end; cbn [fst negb andb orb] in *
         end; try (apply to_int_small; lia); try discriminate.
Qed.

(** [Atoi] on every string. *)
Theorem Atoi_eq_cases s : Atoi s = Atoi_cases s.
Proof.
  unfold Atoi.
  destruct ((0 <? Z.of_nat (String.length s)) && (Z.of_nat (String.length s) <? 19)) eqn:Hlen.
  2:{ rewrite ParseInt_cases. pose proof (Atoi_cases_int s) as H.
      destruct (Atoi_cases s) as [v e]. simpl in *. now rewrite H. }
  destruct s as [|c0 rest]; [reflexivity|].
  assert (Hl : (String.length rest < 18)%nat).
  { cbn [String.length] in Hlen. apply andb_prop in Hlen. destruct Hlen as [_ H2]. apply Z.ltb_lt in H2. lia. }
  unfold Atoi_cases, strip_sign. cbn [is_empty].
  assert (Hfast : forall body, (String.length body <= 18)%nat ->
            Atoi_fast_loop body 0 =
              let '(pre, tl) := span_digits body in
              if is_empty tl then Some (digits_value 0 pre) else None).
  { intros body Hb. apply Atoi_fast_loop_cases; [lia|].
    rewrite Z.mul_1_l. transitivity (10 ^ 18); [|lia].
    apply Z.pow_le_mono_r; lia. }
  assert (Hsmall : forall body pre tl, (String.length body <= 18)%nat ->
            span_digits body = (pre, tl) -> 0 <= digits_value 0 pre < 10 ^ 18).
  { intros body pre tl Hb Hsp.
    pose proof (span_digits_fst _ _ _ Hsp) as Hpre.
    pose proof (digits_value_ge pre 0 ltac:(lia) Hpre).
    pose proof (digits_value_bound pre 0 ltac:(lia) Hpre) as Hbd.
    pose proof (span_digits_length body) as Hle. rewrite Hsp in Hle. simpl in Hle.
    assert (10 ^ Z.of_nat (String.length pre) <= 10 ^ 18)
      by (apply Z.pow_le_mono_r; lia).
    lia. }
  destruct (Ascii.eqb_spec c0 "-") as [->|Hm].
  - cbn [orb andb].
    destruct rest as [|r rest]; [reflexivity|].
    cbn [String.length]. 
    destruct (Z.ltb_spec (Z.of_nat (S (String.length rest))) 1); [lia|].
    rewrite Hfast by (cbn [String.length] in *; lia).
    destruct (span_digits (String r rest)) as [pre tl] eqn:Hsp.
    pose proof (Hsmall (String r rest) pre tl ltac:(cbn [String.length] in *; lia) Hsp) as Hv.
    destruct (Z.leb_spec (2 ^ 64) (digits_value 0 pre)); [lia|].
    destruct tl as [|t tl].
    + apply span_digits_all in Hsp. subst pre. cbn [is_empty orb negb andb].
      destruct (Z.ltb_spec (2 ^ 63) (digits_value 0 (String r rest))); [lia|].
      now rewrite to_int_small by lia.
    + cbn [is_empty negb]. now rewrite orb_true_r.
  - cbn [orb].
    destruct (Ascii.eqb_spec c0 "+") as [->|Hp].
    + cbn [andb].
      destruct rest as [|r rest]; [reflexivity|].
      cbn [String.length].
      destruct (Z.ltb_spec (Z.of_nat (S (String.length rest))) 1); [lia|].
      rewrite Hfast by (cbn [String.length] in *; lia).
      destruct (span_digits (String r rest)) as [pre tl] eqn:Hsp.
      pose proof (Hsmall (String r rest) pre tl ltac:(cbn [String.length] in *; lia) Hsp) as Hv.
      destruct (Z.leb_spec (2 ^ 64) (digits_value 0 pre)); [lia|].
      destruct tl as [|t tl].
      * apply span_digits_all in Hsp. subst pre. cbn [is_empty orb negb andb].
        destruct (Z.leb_spec (2 ^ 63) (digits_value 0 (String r rest))); [lia|].
        reflexivity.
      * cbn [is_empty negb]. now rewrite orb_true_r.
    + cbn [andb].
      rewrite Hfast by (cbn [String.length] in *; lia).
      destruct (span_digits (String c0 rest)) as [pre tl] eqn:Hsp.
      pose proof (Hsmall (String c0 rest) pre tl ltac:(cbn [String.length] in *; lia) Hsp) as Hv.
      destruct (Z.leb_spec (2 ^ 64) (digits_value 0 pre)); [lia|].
      destruct tl as [|t tl].
      * apply span_digits_all in Hsp. subst pre. cbn [is_empty orb negb andb].
        destruct (Z.leb_spec (2 ^ 63) (digits_value 0 (String c0 rest))); [lia|].
        reflexivity.
      * cbn [is_empty negb]. now rewrite orb_true_r.
Qed.

(** An accepted literal is returned without error. *)
Lemma Atoi_int_literal s n : int_literal s = Some n -> Atoi s = (n, None).
Proof.
  rewrite Atoi_eq_cases. unfold int_literal, syntax, value, Atoi_cases.
  destruct (strip_sign s) as [neg body] eqn:Hss. cbn [snd].
  destruct (span_digits body) as [pre tl] eqn:Hsp. cbn [fst].
  pose proof (span_digits_fst _ _ _ Hsp) as Hpre.
  pose proof (digits_value_ge pre 0 ltac:(lia) Hpre) as Hge.
  intros H.
  destruct (is_empty pre) eqn:Hep; [discriminate|].
  destruct (is_empty tl) eqn:Het; [|discriminate].
  cbn [negb andb orb] in *.
  assert (Hs : is_empty s = false).
  { destruct s; [|reflexivity]. simpl in Hss. injection Hss as <- <-.
    simpl in Hsp. injection Hsp as <- <-. discriminate. }
  rewrite Hs.
  destruct neg; cbn [negb andb] in *.
  - destruct (Z.leb_spec (- 2 ^ 63) (- digits_value 0 pre)); [|discriminate].
    destruct (Z.ltb_spec (- digits_value 0 pre) (2 ^ 63)); [|discriminate].
    injection H as <-.
    destruct (Z.leb_spec (2 ^ 64) (digits_value 0 pre)); [lia|].
    destruct (Z.ltb_spec (2 ^ 63) (digits_value 0 pre)); [lia|]. reflexivity.
  - destruct (Z.leb_spec (- 2 ^ 63) (digits_value 0 pre)); [|discriminate].
    destruct (Z.ltb_spec (digits_value 0 pre) (2 ^ 63)); [|discriminate].
    injection H as <-.
    destruct (Z.leb_spec (2 ^ 64) (digits_value 0 pre)); [lia|].
    destruct (Z.leb_spec (2 ^ 63) (digits_value 0 pre)); [lia|]. reflexivity.
Qed.

(** Everything else is an error. *)
Lemma Atoi_not_literal s : int_literal s = None -> snd (Atoi s) <> None.
Proof.
  rewrite Atoi_eq_cases. unfold int_literal, syntax, value, Atoi_cases.
  destruct (strip_sign s) as [neg body] eqn:Hss. cbn [snd].
  destruct (span_digits body) as [pre tl] eqn:Hsp. cbn [fst].
  pose proof (span_digits_fst _ _ _ Hsp) as Hpre.
  pose proof (digits_value_ge pre 0 ltac:(lia) Hpre) as Hge.
  intros H.
  destruct (is_empty s); [discriminate|].
  destruct (Z.leb_spec (2 ^ 64) (digits_value 0 pre)); [discriminate|].
  destruct (is_empty pre); [discriminate|].
  destruct (is_empty tl); [|discriminate].
  cbn [negb andb orb] in *.
  destruct neg; cbn [negb andb] in *.
  - destruct (Z.ltb_spec (2 ^ 63) (digits_value 0 pre)); [discriminate|].
    destruct (Z.leb_spec (- 2 ^ 63) (- digits_value 0 pre)); [|lia].
    destruct (Z.ltb_spec (- digits_value 0 pre) (2 ^ 63)); [discriminate|lia].
  - destruct (Z.leb_spec (2 ^ 63) (digits_value 0 pre)); [discriminate|].
    destruct (Z.leb_spec (- 2 ^ 63) (digits_value 0 pre)); [|lia].
    destruct (Z.ltb_spec (digits_value 0 pre) (2 ^ 63)); [discriminate|lia].
Qed.

(** A syntax error comes with the value 0. *)
Lemma Atoi_syntax_zero s :
  syntax s = false -> decimal.leading_number (snd (strip_sign s)) < 2 ^ 64 ->
  Atoi s = (0, Some ErrSyntax).
Proof.
  rewrite Atoi_eq_cases. unfold syntax, leading_number, Atoi_cases.
  destruct (strip_sign s) as [neg body] eqn:Hss. cbn [snd].
  destruct (span_digits body) as [pre tl] eqn:Hsp. cbn [fst].
  intros H Hv.
  destruct (is_empty s); [reflexivity|].
  destruct (Z.leb_spec (2 ^ 64) (digits_value 0 pre)); [lia|].
  destruct (is_empty pre); [reflexivity|].
  destruct (is_empty tl); [discriminate|]. reflexivity.
Qed.

End strconv_facts.

(** ** Facts about header names *)

Module textproto_facts.
Import textproto fold.

Lemma In_every_byte c : In c every_byte.
Proof.
  unfold every_byte. apply List.in_map_iff.
  exists (Z.to_nat (byte_val c)). pose proof (byte_val_range c). split.
  - rewrite Z2Nat.id by lia. apply byte_of_val.
  - apply List.in_seq. lia.
Qed.

Lemma by_enumeration (P : ascii -> ascii -> bool) :
  List.forallb (fun c => List.forallb (P c) every_byte) every_byte = true ->
  forall c d, P c d = true.
Proof.
  intros H c d. rewrite List.forallb_forall in H.
  specialize (H c (In_every_byte c)). rewrite List.forallb_forall in H.
  apply H, In_every_byte.
Qed.

Lemma by_enumeration1 (P : ascii -> bool) :
  List.forallb P every_byte = true -> forall c, P c = true.
Proof.
  intros H c. rewrite List.forallb_forall in H. apply H, In_every_byte.
Qed.

Lemma canonicalize_cons upper ch a :
  canonicalize upper (String ch a) =
    String (byte_of (canon_byte upper ch))
           (canonicalize (canon_byte upper ch =? 45) a).
Proof. reflexivity. Qed.

Lemma fold_step c d :
  Ascii.eqb (to_lower c) (to_lower d) = true ->
  validHeaderFieldByte c = validHeaderFieldByte d
  /\ forall u, canon_byte u c = canon_byte u d.
Proof.
  intros H.
  assert (E : implb (Ascii.eqb (to_lower c) (to_lower d))
                (Bool.eqb (validHeaderFieldByte c) (validHeaderFieldByte d)
                 && (canon_byte true c =? canon_byte true d)
                 && (canon_byte false c =? canon_byte false d)) = true).
  { revert c d H. intros c d _. revert c d. apply by_enumeration.
    vm_compute. reflexivity. }
  rewrite H in E. cbn [implb] in E.
  apply andb_prop in E as [E E3]. apply andb_prop in E as [E1 E2].
  split; [now apply Bool.eqb_prop|].
  intros [|]; lia.
Qed.

Lemma canon_step u c d :
  byte_of (canon_byte u c) = byte_of (canon_byte u d) ->
  to_lower c = to_lower d /\ canon_byte u c = canon_byte u d.
Proof.
  intros H.
  assert (E : forall u, implb (Ascii.eqb (byte_of (canon_byte u c)) (byte_of (canon_byte u d)))
                (Ascii.eqb (to_lower c) (to_lower d)
                 && (canon_byte u c =? canon_byte u d)) = true).
  { clear. intros [|]; revert c d; apply by_enumeration; vm_compute; reflexivity. }
  specialize (E u). rewrite H, Ascii.eqb_refl in E. cbn [implb] in E.
  apply andb_prop in E as [E1 E2]. apply Ascii.eqb_eq in E1. split; [assumption|lia].
Qed.

Lemma canon_byte_valid u c :
  validHeaderFieldByte (byte_of (canon_byte u c)) = validHeaderFieldByte c
  /\ canon_byte u (byte_of (canon_byte u c)) = canon_byte u c.
Proof.
  assert (E : forall u,
                Bool.eqb (validHeaderFieldByte (byte_of (canon_byte u c)))
                         (validHeaderFieldByte c)
                && (canon_byte u (byte_of (canon_byte u c)) =? canon_byte u c) = true).
  { clear. intros [|]; revert c; apply by_enumeration1; vm_compute; reflexivity. }
  specialize (E u). apply andb_prop in E as [E1 E2].
  split; [now apply Bool.eqb_prop | lia].
Qed.

Lemma lower_eq_valid a : forall b,
  lower a = lower b ->
  all_bytes validHeaderFieldByte a = all_bytes validHeaderFieldByte b.
Proof.
  induction a as [|c a IH]; intros [|d b] H; simpl in H; try discriminate; [reflexivity|].
  injection H as Hc Hab. simpl.
  destruct (fold_step c d) as [-> _]; [now apply Ascii.eqb_eq|].
  f_equal. now apply IH.
Qed.

Lemma lower_eq_canonicalize a : forall b u,
  lower a = lower b -> canonicalize u a = canonicalize u b.
Proof.
  induction a as [|c a IH]; intros [|d b] u H; simpl in H; try discriminate; [reflexivity|].
  injection H as Hc Hab. rewrite !canonicalize_cons.
  destruct (fold_step c d) as [_ E]; [now apply Ascii.eqb_eq|].
  rewrite (E u). f_equal. now apply IH.
Qed.

Lemma canonicalize_eq_lower a : forall b u,
  canonicalize u a = canonicalize u b -> lower a = lower b.
Proof.
  induction a as [|c a IH]; intros [|d b] u H; try discriminate; [reflexivity|].
  rewrite !canonicalize_cons in H. injection H as Hc Hab.
  destruct (canon_step u c d Hc) as [El Ec]. simpl. rewrite El. f_equal.
  rewrite Ec in Hab. now apply IH in Hab.
Qed.

Lemma canonicalize_valid a : forall u,
  all_bytes validHeaderFieldByte (canonicalize u a) = all_bytes validHeaderFieldByte a.
Proof.
  induction a as [|c a IH]; intros u; [reflexivity|].
  rewrite canonicalize_cons. simpl.
  destruct (canon_byte_valid u c) as [-> _]. now rewrite IH.
Qed.

Lemma canonicalize_idem a : forall u,
  canonicalize u (canonicalize u a) = canonicalize u a.
Proof.
  induction a as [|c a IH]; intros u; [reflexivity|].
  rewrite !canonicalize_cons.
  destruct (canon_byte_valid u c) as [_ ->]. now rewrite IH.
Qed.

(** [CanonicalMIMEHeaderKey] is idempotent. *)
Lemma Canonical_idem s :
  CanonicalMIMEHeaderKey (CanonicalMIMEHeaderKey s) = CanonicalMIMEHeaderKey s.
Proof.
  unfold CanonicalMIMEHeaderKey.
  destruct (all_bytes validHeaderFieldByte s) eqn:Hv.
  - now rewrite canonicalize_valid, Hv, canonicalize_idem.
  - now rewrite Hv.
Qed.

(** Two names have the same canonical key exactly when they are equal up
    to letter case, provided one of them is a token. *)
Lemma Canonical_eq_fold a b :
  all_bytes validHeaderFieldByte b = true ->
  CanonicalMIMEHeaderKey a = CanonicalMIMEHeaderKey b <-> eq_fold a b = true.
Proof.
  intros Hb. unfold eq_fold. rewrite String.eqb_eq.
  unfold CanonicalMIMEHeaderKey. rewrite Hb. split.
  - destruct (all_bytes validHeaderFieldByte a) eqn:Ha.
    + apply canonicalize_eq_lower.
    + intros E. rewrite E, canonicalize_valid, Hb in Ha. discriminate.
  - intros E. rewrite (lower_eq_valid a b E), Hb.
    now apply lower_eq_canonicalize.
Qed.

Lemma eq_fold_refl a : eq_fold a a = true.
Proof. unfold eq_fold. apply String.eqb_refl. Qed.

End textproto_facts.

(** ** Facts about header maps *)

Module http_facts.
Import http textproto textproto_facts.

Lemma Add_lookup (h : Header) k v key :
  Add h k v !! key =
    if String.eqb (CanonicalMIMEHeaderKey k) key
    then Some (default [] (h !! key) ++ [v])
    else h !! key.
Proof.
  unfold Add. destruct (String.eqb_spec (CanonicalMIMEHeaderKey k) key) as [->|Hne].
  - apply lookup_insert_eq.
  - now apply lookup_insert_ne.
Qed.

Lemma entry_default vs : default [] (entry vs) = vs.
Proof. now destruct vs. Qed.

Lemma entry_snoc vs (v : string) : entry (vs ++ [v]) = Some (vs ++ [v]).
Proof. now destruct vs. Qed.

(** The header map of a received request, key by key. *)
Lemma ReadMIMEHeader_lookup lines key :
  ReadMIMEHeader lines !! key = entry (values_under key lines).
Proof.
  unfold ReadMIMEHeader.
  induction lines as [|[k v] lines IH] using rev_ind; [apply lookup_empty|].
  rewrite foldl_app. cbn [foldl fst snd]. rewrite Add_lookup, IH.
  unfold values_under. rewrite List.filter_app, List.map_app. cbn [List.filter fst].
  destruct (String.eqb (CanonicalMIMEHeaderKey k) key).
  - cbn [List.map snd]. now rewrite entry_default, entry_snoc.
  - cbn [List.map]. now rewrite List.app_nil_r.
Qed.

(** Every key of a received request is its own canonical form. *)
Lemma ReadMIMEHeader_canonical lines k vs :
  ReadMIMEHeader lines !! k = Some vs -> CanonicalMIMEHeaderKey k = k.
Proof.
  rewrite ReadMIMEHeader_lookup. unfold values_under.
  destruct (List.filter _ lines) as [|[n v] l] eqn:Hf; [discriminate|].
  intros _.
  assert (Hin : In (n, v) (List.filter
            (fun kv => String.eqb (CanonicalMIMEHeaderKey (fst kv)) k) lines))
    by (rewrite Hf; now left).
  apply List.filter_In in Hin as [_ Hin]. cbn [fst] in Hin.
  apply String.eqb_eq in Hin. subst k. apply Canonical_idem.
Qed.

Lemma values_under_named item lines :
  all_bytes validHeaderFieldByte item = true ->
  values_under (CanonicalMIMEHeaderKey item) lines = fields_named item lines.
Proof.
  intros Hv. unfold values_under, fields_named. f_equal.
  apply List.filter_ext. intros [n v]. cbn [fst].
  pose proof (Canonical_eq_fold n item Hv) as E.
  destruct (fold.eq_fold n item).
  - apply String.eqb_eq. now apply E.
  - apply String.eqb_neq. intros C. apply E in C. discriminate.
Qed.

End http_facts.

Section ForwardFacts.
Context {Ctx : Type}.
Implicit Types (req : Request Ctx).

Lemma forward_step_lookup (h : http.Header) (l : list string) :
  forall (acc : http.Header) (k : string),
  foldl (fun header item =>
           let values := http.Values h item in
           if 0 <? Z.of_nat (length values) then <[item := values]> header
           else header) acc l !! k
  = if decide (k ∈ l /\ http.Values h k <> [])
    then Some (http.Values h k) else acc !! k.
Proof.
  induction l as [|x l IH]; intros acc k.
  - cbn [foldl]. destruct (decide _) as [[C _]|]; [inversion C | reflexivity].
  - cbn [foldl]. rewrite IH. cbv zeta.
    destruct (decide (k ∈ l /\ http.Values h k <> [])) as [[Hin Hne]|Hn].
    + rewrite decide_True; [reflexivity | split; [apply elem_of_cons; now right | assumption]].
    + destruct (decide (k = x)) as [->|Hkx].
      * destruct (http.Values h x) as [|v vs] eqn:Hv.
        -- cbn [length]. rewrite decide_False; [reflexivity | intros [_ C]; now apply C].
        -- cbn [length].
           destruct (Z.ltb_spec 0 (Z.of_nat (S (length vs)))); [|lia].
           rewrite lookup_insert_eq.
           rewrite decide_True; [reflexivity | split; [apply elem_of_cons; now left | discriminate]].
      * assert (Hacc : (if 0 <? Z.of_nat (length (http.Values h x))
                        then <[x := http.Values h x]> acc else acc) !! k = acc !! k).
        { destruct (0 <? _); [now apply lookup_insert_ne | reflexivity]. }
        rewrite Hacc.
        rewrite decide_False; [reflexivity|].
        intros [C Hne]. apply elem_of_cons in C as [C|C]; [congruence | apply Hn; now split].
Qed.

(** [getForwardHeaders], key by key: an allow-listed name carries the
    values stored under its canonical key, when there are any. *)
Lemma getForwardHeaders_lookup req (k : string) :
  getForwardHeaders req !! k =
    if decide (k ∈ incomingHeaders)
    then entry (http.Values (Header req) k) else None.
Proof.
  unfold getForwardHeaders. rewrite forward_step_lookup, lookup_empty.
  destruct (decide (k ∈ incomingHeaders)) as [Hin|Hn].
  - destruct (http.Values (Header req) k) eqn:Hv.
    + rewrite decide_False; [reflexivity | intros [_ C]; now apply C].
    + rewrite decide_True; [reflexivity | split; [assumption | discriminate]].
  - rewrite decide_False; [reflexivity | intros [C _]; now apply Hn].
Qed.

End ForwardFacts.

Lemma incomingHeaders_tokens item :
  item ∈ incomingHeaders ->
  textproto.all_bytes textproto.validHeaderFieldByte item = true
  /\ fold.lower item = item.
Proof.
  intros H.
  assert (E : List.forallb (fun item =>
                textproto.all_bytes textproto.validHeaderFieldByte item
                && String.eqb (fold.lower item) item) incomingHeaders = true)
    by (vm_compute; reflexivity).
  rewrite List.forallb_forall in E. apply list_elem_of_In in H. specialize (E item H).
  apply andb_prop in E as [E1 E2]. apply String.eqb_eq in E2. now split.
Qed.

(** ** Facts about path segments and the response writer *)

Module strings_facts.
Import strings path.

Lemma Split_no_slash s : has_slash s = false -> Split s "/" = [s].
Proof.
  induction s as [|c s IH]; [reflexivity|]. cbn [has_slash Split].
  destruct (Ascii.eqb c "/"); [discriminate|]. cbn [orb].
  intros H. now rewrite (IH H).
Qed.

Lemma trailing_no_slash s : has_slash s = false -> trailing_segment s = s.
Proof.
  destruct s as [|c s]; [reflexivity|]. cbn [has_slash trailing_segment].
  destruct (Ascii.eqb c "/"); [discriminate|]. cbn [orb]. now intros ->.
Qed.

Lemma Split_has_slash s :
  has_slash s = true -> exists a b l, Split s "/" = a :: b :: l.
Proof.
  induction s as [|c s IH]; [discriminate|]. cbn [has_slash Split].
  destruct (Ascii.eqb c "/"); cbn [orb].
  - intros _. destruct (has_slash s) eqn:Hs.
    + destruct (IH eq_refl) as (a & b & l & ->). eauto.
    + rewrite (Split_no_slash s Hs). eauto.
  - intros Hs. destruct (IH Hs) as (a & b & l & ->). eauto.
Qed.

(** The last piece of the split path is its trailing segment. *)
Lemma Split_last s : last (Split s "/") = Some (trailing_segment s).
Proof.
  induction s as [|c s IH]; [reflexivity|]. cbn [Split trailing_segment].
  destruct (has_slash s) eqn:Hs.
  - destruct (Split_has_slash s Hs) as (a & b & l & E). rewrite E in *.
    destruct (Ascii.eqb c "/"); exact IH.
  - rewrite (Split_no_slash s Hs).
    destruct (Ascii.eqb c "/"); reflexivity.
Qed.

Lemma index_last {A : Type} (l : list A) (x : A) p :
  last l = Some x -> index l (Z.of_nat (length l) - 1) p = (Ret x, p).
Proof.
  intros H. unfold index.
  assert (Hl : (0 < length l)%nat) by (destruct l; [discriminate | simpl; lia]).
  destruct (Z.ltb_spec (Z.of_nat (length l) - 1) 0); [lia|].
  rewrite last_lookup in H.
  replace (Z.to_nat (Z.of_nat (length l) - 1)) with (Nat.pred (length l)) by lia.
  now rewrite H.
Qed.

End strings_facts.

Lemma untouched_new : untouched http.newResponseWriter.
Proof. repeat split. Qed.

Lemma canonical_keys_read lines : canonical_keys (http.ReadMIMEHeader lines).
Proof. intros k vs. apply http_facts.ReadMIMEHeader_canonical. Qed.

(** * The program, unfolded *)

Section ServiceFacts.
Context {Ctx : Type} (net : Net Ctx).
Implicit Types (p : Proc) (id : Z) (headers : http.Header) (ctx : Ctx).

Lemma fetch_unfold isbn id headers ctx p :
  fetchDetailsFromExternalService net isbn id headers ctx p =
    let req := lookup_request p isbn ctx in
    if NewRequest_fails net "GET" (URL req) then (Ret Details_zero, p)
    else match Do net req with
         | inl err => (Ret Details_zero,
                       {| environ := environ p; stdout := stdout p ++ [err] |})
         | inr res =>
             if negb (StatusCode res =? 200) then
               (Ret Details_zero,
                {| environ := environ p; stdout := stdout p ++ [Status res] |})
             else
               match book.Items (fst (Decode net (Body res))) with
               | [] => (Panic "runtime error: index out of range", p)
               | item :: _ =>
                   match book.Authors (book.VolumeInfo_ item) with
                   | [] => (Panic "runtime error: index out of range", p)
                   | author :: _ =>
                       (Ret (Details_of_volume id author (book.VolumeInfo_ item)), p)
                   end
               end
         end.
Proof.
  unfold fetchDetailsFromExternalService, lookup_request. run.
  cbn [URL].
  destruct (NewRequest_fails net _ _); [reflexivity|].
  destruct (Do net _) as [err|res]; [reflexivity|].
  destruct (negb (StatusCode res =? 200)); [reflexivity|].
  destruct (book.Items _) as [|item items]; [reflexivity|].
  change (Z.to_nat 0) with 0%nat. cbn [lookup list_lookup Z.ltb Z.compare].
  destruct (book.Authors _) as [|author authors]; reflexivity.
Qed.

Lemma getBookDetails_unfold id headers ctx p :
  getBookDetails net id headers ctx p =
    if String.eqb (default EmptyString (environ p !! "ENABLE_EXTERNAL_BOOK_SERVICE")) "true"
    then fetchDetailsFromExternalService net "0486424618" id headers ctx p
    else (Ret (static_Details id), p).
Proof.
  unfold getBookDetails. run.
  destruct (String.eqb _ "true"); reflexivity.
Qed.

End ServiceFacts.

Section Resolver.
Context {Ctx : Type} (net : Net Ctx).
Implicit Types (p : Proc) (id : Z) (headers : http.Header) (ctx : Ctx).

(** *** The failure paths of the client that are handled *)

Lemma fetch_request_error isbn id headers ctx p :
  NewRequest_fails net "GET" (URL (lookup_request p isbn ctx)) = true ->
  fetchDetailsFromExternalService net isbn id headers ctx p = (Ret Details_zero, p).
Proof. intros H. rewrite fetch_unfold. cbv zeta. now rewrite H. Qed.

Lemma fetch_transport_error isbn id headers ctx p err :
  NewRequest_fails net "GET" (URL (lookup_request p isbn ctx)) = false ->
  Do net (lookup_request p isbn ctx) = inl err ->
  fetchDetailsFromExternalService net isbn id headers ctx p
  = (Ret Details_zero, {| environ := environ p; stdout := stdout p ++ [err] |}).
Proof. intros H1 H2. rewrite fetch_unfold. cbv zeta. now rewrite H1, H2. Qed.

Lemma fetch_bad_status isbn id headers ctx p res :
  NewRequest_fails net "GET" (URL (lookup_request p isbn ctx)) = false ->
  Do net (lookup_request p isbn ctx) = inr res ->
  StatusCode res <> 200 ->
  fetchDetailsFromExternalService net isbn id headers ctx p
  = (Ret Details_zero, {| environ := environ p; stdout := stdout p ++ [Status res] |}).
Proof.
  intros H1 H2 H3. rewrite fetch_unfold. cbv zeta. rewrite H1, H2.
  destruct (Z.eqb_spec (StatusCode res) 200); [contradiction | reflexivity].
Qed.

(** *** The failure paths that are not: a 200 answer without items or
    without authors *)

Lemma fetch_no_items isbn id headers ctx p res :
  NewRequest_fails net "GET" (URL (lookup_request p isbn ctx)) = false ->
  Do net (lookup_request p isbn ctx) = inr res ->
  StatusCode res = 200 ->
  book.Items (fst (Decode net (Body res))) = [] ->
  fetchDetailsFromExternalService net isbn id headers ctx p
  = (Panic "runtime error: index out of range", p).
Proof.
  intros H1 H2 H3 H4. rewrite fetch_unfold. cbv zeta.
  now rewrite H1, H2, H3, H4.
Qed.

Lemma fetch_no_authors isbn id headers ctx p res item items :
  NewRequest_fails net "GET" (URL (lookup_request p isbn ctx)) = false ->
  Do net (lookup_request p isbn ctx) = inr res ->
  StatusCode res = 200 ->
  book.Items (fst (Decode net (Body res))) = item :: items ->
  book.Authors (book.VolumeInfo_ item) = [] ->
  fetchDetailsFromExternalService net isbn id headers ctx p
  = (Panic "runtime error: index out of range", p).
Proof.
  intros H1 H2 H3 H4 H5. rewrite fetch_unfold. cbv zeta.
  now rewrite H1, H2, H3, H4, H5.
Qed.

(** *** The success path *)

Lemma fetch_volume isbn id headers ctx p res item items author authors :
  NewRequest_fails net "GET" (URL (lookup_request p isbn ctx)) = false ->
  Do net (lookup_request p isbn ctx) = inr res ->
  StatusCode res = 200 ->
  book.Items (fst (Decode net (Body res))) = item :: items ->
  book.Authors (book.VolumeInfo_ item) = author :: authors ->
  fetchDetailsFromExternalService net isbn id headers ctx p
  = (Ret (Details_of_volume id author (book.VolumeInfo_ item)), p).
Proof.
  intros H1 H2 H3 H4 H5. rewrite fetch_unfold. cbv zeta.
  now rewrite H1, H2, H3, H4, H5.
Qed.

(** The record of a call depends on [id] through its [Id] alone, and not
    at all on the forwarded headers. *)
Lemma fetch_without_Id isbn id id' headers headers' ctx p :
  without_Id (fetchDetailsFromExternalService net isbn id headers ctx p)
  = without_Id (fetchDetailsFromExternalService net isbn id' headers' ctx p).
Proof.
  rewrite !fetch_unfold. cbv zeta.
  destruct (NewRequest_fails net _ _); [reflexivity|].
  destruct (Do net _) as [err|res]; [reflexivity|].
  destruct (negb _); [reflexivity|].
  destruct (book.Items _) as [|item items]; [reflexivity|].
  destruct (book.Authors _) as [|author authors]; reflexivity.
Qed.

Lemma fetch_environ isbn id headers ctx p :
  environ (snd (fetchDetailsFromExternalService net isbn id headers ctx p)) = environ p.
Proof.
  rewrite fetch_unfold. cbv zeta.
  destruct (NewRequest_fails net _ _); [reflexivity|].
  destruct (Do net _) as [err|res]; [reflexivity|].
  destruct (negb _); [reflexivity|].
  destruct (book.Items _) as [|item items]; [reflexivity|].
  destruct (book.Authors _) as [|author authors]; reflexivity.
Qed.

(** Two process states with the same [DO_NOT_ENCRYPT] give the same
    record and print the same lines. *)
Lemma fetch_same_toggle isbn id headers ctx p q :
  env p "DO_NOT_ENCRYPT" = env q "DO_NOT_ENCRYPT" ->
  fst (fetchDetailsFromExternalService net isbn id headers ctx p)
  = fst (fetchDetailsFromExternalService net isbn id headers ctx q)
  /\ exists lines,
      stdout (snd (fetchDetailsFromExternalService net isbn id headers ctx p))
      = stdout p ++ lines
      /\ stdout (snd (fetchDetailsFromExternalService net isbn id headers ctx q))
         = stdout q ++ lines.
Proof.
  intros E. rewrite !fetch_unfold. cbv zeta.
  assert (R : lookup_request p isbn ctx = lookup_request q isbn ctx).
  { unfold lookup_request. unfold env in E. now rewrite E. }
  rewrite R.
  destruct (NewRequest_fails net _ _).
  { split; [reflexivity|]. exists []. now rewrite !app_nil_r. }
  destruct (Do net _) as [err|res].
  { split; [reflexivity|]. now exists [err]. }
  destruct (negb _).
  { split; [reflexivity|]. now exists [Status res]. }
  destruct (book.Items _) as [|item items].
  { split; [reflexivity|]. exists []. now rewrite !app_nil_r. }
  destruct (book.Authors _) as [|author authors];
    (split; [reflexivity|]; exists []; now rewrite !app_nil_r).
Qed.

End Resolver.

Section HandlerFacts.
Context {Ctx : Type} (net : Net Ctx).
Implicit Types (p : Proc) (req : Request Ctx) (w : http.ResponseWriter).

Lemma details_unfold w req p :
  details net w req p =
    let '(id, err) := strconv.Atoi (path.trailing_segment (URL_Path req)) in
    let w1 := http.Header_Add w "Content-Type" "application/json" in
    match err with
    | Some _ =>
        (Ret (http.Write (http.WriteHeader w1 400)
                (Marshal_Error "please provide numeric product id")), p)
    | None =>
        match getBookDetails net id (getForwardHeaders req) (req_Context req) p with
        | (Ret d, p') => (Ret (http.Write w1 (Marshal_Details d)), p')
        | (Panic msg, p') => (Panic msg, p')
        end
    end.
Proof.
  unfold details. unfold mbind at 1. unfold M_bind at 1.
  rewrite (strings_facts.index_last _ _ p (strings_facts.Split_last (URL_Path req))).
  destruct (strconv.Atoi _) as [id [e|]]; [reflexivity|].
  unfold mbind, M_bind, mret, M_ret.
  destruct (getBookDetails net id _ _ p) as [[d|msg] p']; reflexivity.
Qed.

Lemma Marshal_Error_body :
  Marshal_Error "please provide numeric product id" = error_body.
Proof. reflexivity. Qed.

Lemma Write_untouched w code data :
  untouched w ->
  let w' := http.Write (http.WriteHeader
              (http.Header_Add w "Content-Type" "application/json") code) data in
  http.StatusCode_of w' = Some code /\ http.rw_body w' = data
  /\ http.sent_values w' "Content-Type" = ["application/json"].
Proof.
  intros (Hs & Hb & Hc). unfold http.Write, http.WriteHeader, http.Header_Add,
    http.StatusCode_of, http.sent_values. cbn [http.rw_sent http.rw_header http.rw_body].
  rewrite Hs. cbn [http.rw_sent http.rw_header http.rw_body fmap option_fmap option_map fst].
  rewrite Hb. split; [reflexivity|]. split; [reflexivity|].
  unfold http.Values in *. rewrite http_facts.Add_lookup, String.eqb_refl.
  cbn [default from_option id]. now rewrite Hc.
Qed.

Lemma Write_after_200 w data :
  http.Write (http.WriteHeader w 200) data = http.Write w data.
Proof.
  unfold http.Write, http.WriteHeader. destruct w as [h [s|] b]; reflexivity.
Qed.

Lemma Write_untouched_200 w data :
  untouched w ->
  let w' := http.Write (http.Header_Add w "Content-Type" "application/json") data in
  http.StatusCode_of w' = Some 200 /\ http.rw_body w' = data
  /\ http.sent_values w' "Content-Type" = ["application/json"].
Proof.
  intros H. rewrite <- Write_after_200. now apply Write_untouched.
Qed.

End HandlerFacts.

Section ForwardValues.
Context {Ctx : Type}.
Implicit Types (req : Request Ctx).

Lemma Values_allow_listed req item k vs :
  canonical_keys (Header req) ->
  item ∈ incomingHeaders ->
  Header req !! k = Some vs -> fold.eq_fold k item = true ->
  http.Values (Header req) item = vs.
Proof.
  intros Hc Hin Hk He. unfold http.Values.
  destruct (incomingHeaders_tokens item Hin) as [Hv _].
  apply (textproto_facts.Canonical_eq_fold k item Hv) in He.
  rewrite (Hc k vs Hk) in He. subst k. now rewrite Hk.
Qed.

Lemma Values_entry req item :
  item ∈ incomingHeaders ->
  (forall k vs, Header req !! k = Some vs -> fold.eq_fold k item = true -> vs = []) ->
  entry (http.Values (Header req) item) = None.
Proof.
  intros Hin Hno. unfold http.Values.
  destruct (Header req !! textproto.CanonicalMIMEHeaderKey item) as [vs|] eqn:Hk;
    [|reflexivity].
  destruct (incomingHeaders_tokens item Hin) as [Hv _].
  rewrite (Hno _ vs Hk); [reflexivity|].
  apply (textproto_facts.Canonical_eq_fold _ item Hv), textproto_facts.Canonical_idem.
Qed.

End ForwardValues.

(** ** The id member of the JSON, and [Atoi] out of range *)

Lemma string_app_assoc' (a b c : string) : (a +:+ b) +:+ c = a +:+ b +:+ c.
Proof.
  induction a as [|x a IH]; [reflexivity|].
  change (String x ((a +:+ b) +:+ c) = String x (a +:+ b +:+ c)). now f_equal.
Qed.

(** The JSON of a record starts with its id member. *)
Lemma Marshal_Details_id d :
  exists rest, Marshal_Details d = id_member (Id d) +:+ rest.
Proof.
  unfold Marshal_Details, json.object, id_member.
  cbn [json.join_fields]. unfold json.field at 1.
  eexists. rewrite !string_app_assoc'. reflexivity.
Qed.

Module strconv_clamp.
Import strconv decimal.

(** Out of range, [Atoi] returns the nearest [int] with a range error: for
    a literal that does not fit, and as soon as the leading digits reach
    2^64. *)
Lemma Atoi_clamped s :
  (syntax s = true /\ int_literal s = None)
  \/ 2 ^ 64 <= leading_number (snd (strip_sign s)) ->
  Atoi s = (if fst (strip_sign s) then - 2 ^ 63 else 2 ^ 63 - 1, Some ErrRange).
Proof.
  rewrite strconv_facts.Atoi_eq_cases.
  unfold int_literal, syntax, value, leading_number, Atoi_cases.
  destruct (strip_sign s) as [neg body] eqn:Hss. cbn [fst snd].
  destruct (span_digits body) as [pre tl] eqn:Hsp. cbn [fst].
  pose proof (strconv_facts.span_digits_fst _ _ _ Hsp) as Hpre.
  pose proof (strconv_facts.digits_value_ge pre 0 ltac:(lia) Hpre) as Hge.
  intros H.
  destruct (is_empty s) eqn:Hs.
  { destruct s; [|discriminate]. cbn in Hss. injection Hss as <- <-.
    cbn in Hsp. injection Hsp as <- <-. cbn in H.
    destruct H as [[H _]|H]; [discriminate | lia]. }
  destruct (Z.leb_spec (2 ^ 64) (digits_value 0 pre)) as [Hr|Hr]; [reflexivity|].
  destruct H as [[H1 H2]|H]; [|lia].
  destruct (is_empty pre); [discriminate|]. destruct (is_empty tl); [|discriminate].
  cbn [negb andb orb] in *.
  destruct neg; cbn [negb andb] in *.
  - destruct (Z.ltb_spec (2 ^ 63) (digits_value 0 pre)); [reflexivity|].
    destruct (Z.leb_spec (- 2 ^ 63) (- digits_value 0 pre)); [|lia].
    destruct (Z.ltb_spec (- digits_value 0 pre) (2 ^ 63)); [discriminate | lia].
  - destruct (Z.leb_spec (2 ^ 63) (digits_value 0 pre)); [reflexivity|].
    destruct (Z.leb_spec (- 2 ^ 63) (digits_value 0 pre)); [|lia].
    destruct (Z.ltb_spec (digits_value 0 pre) (2 ^ 63)); [discriminate | lia].
Qed.

End strconv_clamp.

(** * Properties of the service *)

Section ResolverClaims.
Context {Ctx : Type} (net : Net Ctx).
Implicit Types (p : Proc) (id : Z) (headers : http.Header) (ctx : Ctx).

(** C5. With the external source disabled, that is, with
    [ENABLE_EXTERNAL_BOOK_SERVICE] different from ["true"] in the
    environment, [getBookDetails] returns the literal record with the
    caller's id in it: author William Shakespeare, year 1595, type
    paperback, 200 pages, publisher PublisherA, language English, isbn-10
    1234567890, isbn-13 123-1234567890. It does so for every id, without a
    panic, without a line printed and without touching the upstream. *)
Theorem getBookDetails_static id headers ctx p :
  env p "ENABLE_EXTERNAL_BOOK_SERVICE" <> "true" ->
  getBookDetails net id headers ctx p
  = (Ret {| Id := id;
            Author := "William Shakespeare";
            Year := 1595;
            Type_ := "paperback";
            Pages := 200;
            Publisher := "PublisherA";
            Language := "English";
            ISBN_10 := "1234567890";
            ISBN_13 := "123-1234567890" |}, p).
Proof.
  intros H. rewrite getBookDetails_unfold. fold (env p "ENABLE_EXTERNAL_BOOK_SERVICE").
  destruct (String.eqb_spec (env p "ENABLE_EXTERNAL_BOOK_SERVICE") "true");
    [contradiction | reflexivity].
Qed.

(** C6. For an upstream answer with status 200 whose decoded body has a
    first item with a first author, the record returned has type
    paperback when the item's printType is BOOK and unknown for any other
    printType, and language English when the item's language is en and
    unknown for any other language. *)
Theorem fetch_type_language isbn id headers ctx p res item items author authors :
  NewRequest_fails net "GET" (URL (lookup_request p isbn ctx)) = false ->
  Do net (lookup_request p isbn ctx) = inr res ->
  StatusCode res = 200 ->
  book.Items (fst (Decode net (Body res))) = item :: items ->
  book.Authors (book.VolumeInfo_ item) = author :: authors ->
  exists d,
    fetchDetailsFromExternalService net isbn id headers ctx p = (Ret d, p)
    /\ (book.PrintType (book.VolumeInfo_ item) = "BOOK" -> Type_ d = "paperback")
    /\ (book.PrintType (book.VolumeInfo_ item) <> "BOOK" -> Type_ d = "unknown")
    /\ (book.Language (book.VolumeInfo_ item) = "en" -> Language d = "English")
    /\ (book.Language (book.VolumeInfo_ item) <> "en" -> Language d = "unknown").
Proof.
  intros H1 H2 H3 H4 H5. eexists. split; [eapply fetch_volume; eassumption|].
  cbn [Details_of_volume Type_ Language].
  destruct (String.eqb_spec (book.PrintType (book.VolumeInfo_ item)) "BOOK");
    destruct (String.eqb_spec (book.Language (book.VolumeInfo_ item)) "en");
    repeat split; intros; congruence.
Qed.

(** C8. With the external source enabled, [getBookDetails] is the call of
    [fetchDetailsFromExternalService] with the lookup key 0486424618,
    whatever the id; two calls that differ in the id (and in the forwarded
    headers) give results that differ at most in the field [Id]: same
    outcome, same other fields, same lines printed; and when the upstream
    answers the lookup of 0486424618 with status 200, a first item and a
    first author, the record returned is the one built from that item with
    the caller's id in [Id]. *)
Theorem getBookDetails_external_fixed_isbn id headers ctx p :
  env p "ENABLE_EXTERNAL_BOOK_SERVICE" = "true" ->
  getBookDetails net id headers ctx p
  = fetchDetailsFromExternalService net "0486424618" id headers ctx p
  /\ (forall id' headers',
        without_Id (getBookDetails net id' headers' ctx p)
        = without_Id (getBookDetails net id headers ctx p))
  /\ (forall res item items author authors,
        let scheme :=
          if String.eqb (env p "DO_NOT_ENCRYPT") "true" then "http" else "https" in
        let uri := scheme +:+ "://www.googleapis.com/books/v1/volumes?q=isbn:0486424618" in
        NewRequest_fails net "GET" uri = false ->
        Do net {| Method := "GET"; URL := uri; out_Context := ctx |} = inr res ->
        StatusCode res = 200 ->
        book.Items (fst (Decode net (Body res))) = item :: items ->
        book.Authors (book.VolumeInfo_ item) = author :: authors ->
        exists d,
          getBookDetails net id headers ctx p = (Ret d, p)
          /\ Id d = id
          /\ d = set_Id id (Details_of_volume 0 author (book.VolumeInfo_ item))).
Proof.
  intros H. unfold env in H. split; [|split].
  - rewrite getBookDetails_unfold, H. reflexivity.
  - intros id' headers'. rewrite !getBookDetails_unfold, H.
    change ("true" =? "true")%string with true. cbv iota. apply fetch_without_Id.
  - intros res item items author authors scheme uri H1 H2 H3 H4 H5.
    rewrite getBookDetails_unfold, H.
    change ("true" =? "true")%string with true. cbv iota.
    exists (Details_of_volume id author (book.VolumeInfo_ item)).
    split; [|split; reflexivity].
    exact (fetch_volume net "0486424618" id headers ctx p res item items author authors
             H1 H2 H3 H4 H5).
Qed.

(** C2, as the code has it. For an upstream answer with status 200 whose
    decoded body has a first item with a first author, the year of the
    record is what [strconv.Atoi] returns for the whole published-date
    string, its error dropped: the integer the string denotes when the
    whole string is an optionally signed decimal integer that fits an
    [int]; the nearest [int] (2^63-1, or -2^63 after a minus sign) when the
    string is such a decimal integer that does not fit, or when the digits
    at its start alone reach 2^64; and 0 in every other case. *)
Theorem fetch_year isbn id headers ctx p res item items author authors :
  NewRequest_fails net "GET" (URL (lookup_request p isbn ctx)) = false ->
  Do net (lookup_request p isbn ctx) = inr res ->
  StatusCode res = 200 ->
  book.Items (fst (Decode net (Body res))) = item :: items ->
  book.Authors (book.VolumeInfo_ item) = author :: authors ->
  let date := book.PublishedDate (book.VolumeInfo_ item) in
  exists d,
    fetchDetailsFromExternalService net isbn id headers ctx p = (Ret d, p)
    /\ Year d = fst (strconv.Atoi date)
    /\ (forall n, decimal.int_literal date = Some n -> Year d = n)
    /\ (decimal.syntax date = false ->
        decimal.leading_number (snd (decimal.strip_sign date)) < 2 ^ 64 ->
        Year d = 0)
    /\ ((decimal.syntax date = true /\ decimal.int_literal date = None)
        \/ 2 ^ 64 <= decimal.leading_number (snd (decimal.strip_sign date)) ->
        Year d = if fst (decimal.strip_sign date) then - 2 ^ 63 else 2 ^ 63 - 1).
Proof.
  intros H1 H2 H3 H4 H5 date. eexists. split; [eapply fetch_volume; eassumption|].
  cbn [Details_of_volume Year]. fold date. split; [reflexivity|]. split; [|split].
  - intros n Hn. now rewrite (strconv_facts.Atoi_int_literal _ _ Hn).
  - intros Hs Hv. now rewrite (strconv_facts.Atoi_syntax_zero _ Hs Hv).
  - intros Hc. now rewrite (strconv_clamp.Atoi_clamped _ Hc).
Qed.


End ResolverClaims.

Lemma getBookDetails_static_witness :
  getBookDetails refused 42 ∅ tt (quiet ∅) = (Ret (static_Details 42), quiet ∅).
Proof.
  apply (getBookDetails_static refused 42 ∅ tt (quiet ∅)). vm_compute. discriminate.
Defined.

Lemma fetch_type_language_witness :
  exists d,
    fetchDetailsFromExternalService (one_volume (sample_volume "1595")) "0486424618" 42 ∅ tt
      (quiet external_on) = (Ret d, quiet external_on)
    /\ Type_ d = "paperback" /\ Language d = "English".
Proof.
  destruct (fetch_type_language (one_volume (sample_volume "1595")) "0486424618" 42 ∅ tt
              (quiet external_on) ok_response
              {| book.VolumeInfo_ := sample_volume "1595" |} []
              "William Shakespeare" [] eq_refl eq_refl eq_refl eq_refl eq_refl)
    as (d & Hd & Ht & _ & Hl & _).
  exists d. split; [exact Hd|]. split; [exact (Ht eq_refl) | exact (Hl eq_refl)].
Defined.

Lemma getBookDetails_external_fixed_isbn_witness :
  exists d,
    getBookDetails one_book_net 7 ∅ tt (quiet external_on) = (Ret d, quiet external_on)
    /\ Id d = 7
    /\ d = set_Id 7 (Details_of_volume 0 "William Shakespeare" (sample_volume "1595")).
Proof.
  exact (proj2 (proj2 (getBookDetails_external_fixed_isbn one_book_net 7 ∅ tt
                         (quiet external_on) eq_refl))
           ok_response {| book.VolumeInfo_ := sample_volume "1595" |} []
           "William Shakespeare" [] eq_refl eq_refl eq_refl eq_refl eq_refl).
Defined.

Lemma fetch_year_witness :
  (exists d,
     fetchDetailsFromExternalService (one_volume (sample_volume "1595")) "0486424618" 42 ∅ tt
       (quiet external_on) = (Ret d, quiet external_on)
     /\ Year d = 1595)
  /\ (exists d,
        fetchDetailsFromExternalService (one_volume (sample_volume "-9223372036854775809"))
          "0486424618" 42 ∅ tt (quiet external_on) = (Ret d, quiet external_on)
        /\ Year d = - 2 ^ 63).
Proof.
  split.
  - destruct (fetch_year (one_volume (sample_volume "1595")) "0486424618" 42 ∅ tt
                (quiet external_on) ok_response
                {| book.VolumeInfo_ := sample_volume "1595" |} []
                "William Shakespeare" [] eq_refl eq_refl eq_refl eq_refl eq_refl)
      as (d & Hd & _ & Hn & _).
    exists d. split; [exact Hd|]. apply Hn. vm_compute. reflexivity.
  - destruct (fetch_year (one_volume (sample_volume "-9223372036854775809")) "0486424618"
                42 ∅ tt (quiet external_on) ok_response
                {| book.VolumeInfo_ := sample_volume "-9223372036854775809" |} []
                "William Shakespeare" [] eq_refl eq_refl eq_refl eq_refl eq_refl)
      as (d & Hd & _ & _ & _ & Hc).
    exists d. split; [exact Hd|]. apply Hc. left. vm_compute. split; reflexivity.
Defined.


(** C2, as stated, fails: the published date 1595-05-01 gives the year 0,
    while its leading number is 1595. *)
Lemma year_is_not_leading_number :
  Year <$> returned (fetchDetailsFromExternalService
                       (one_volume (sample_volume "1595-05-01")) "0486424618" 42 ∅ tt
                       (quiet external_on)) = Some 0
  /\ decimal.leading_number "1595-05-01" = 1595
  /\ Year <$> returned (fetchDetailsFromExternalService
                          (one_volume (sample_volume "1595-05-01")) "0486424618" 42 ∅ tt
                          (quiet external_on))
     <> Some (decimal.leading_number "1595-05-01").
Proof. vm_compute. repeat split; discriminate. Qed.


(** C1. The code does not do what the claim says when the upstream answers
    200 with a body that holds no items (or an item without authors): the
    call panics with an index out of range. A refused connection, in
    contrast, gives the zero record. *)
Theorem fetch_without_items_panics :
  fetchDetailsFromExternalService no_items "0486424618" 42 ∅ tt (quiet external_on)
  = (Panic "runtime error: index out of range", quiet external_on)
  /\ fetchDetailsFromExternalService
       (one_volume {| book.Language := "en"; book.PrintType := "BOOK";
                      book.Authors := []; book.Publisher := "";
                      book.PageCount := 0; book.PublishedDate := "";
                      book.IndustryIdentifiers := [] |})
       "0486424618" 42 ∅ tt (quiet external_on)
     = (Panic "runtime error: index out of range", quiet external_on)
  /\ fst (fetchDetailsFromExternalService refused "0486424618" 42 ∅ tt (quiet external_on))
     = Ret Details_zero.
Proof. repeat split. Qed.

Section HandlerClaims.
Context {Ctx : Type} (net : Net Ctx).
Implicit Types (p : Proc) (req : Request Ctx) (w : http.ResponseWriter).

(** C7. When the trailing segment of the request path is not a decimal
    integer that [Atoi] accepts, the handler answers with status 400, the
    body [{"error":"please provide numeric product id"}] byte for byte,
    and the content type application/json; and whatever the path, an
    answer of the handler carries the content type application/json. *)
Theorem details_non_numeric w req p :
  untouched w ->
  (decimal.int_literal (path.trailing_segment (URL_Path req)) = None ->
   exists w',
     details net w req p = (Ret w', p)
     /\ http.StatusCode_of w' = Some 400
     /\ http.rw_body w' = error_body
     /\ http.sent_values w' "Content-Type" = ["application/json"])
  /\ (forall w' p',
        details net w req p = (Ret w', p') ->
        http.sent_values w' "Content-Type" = ["application/json"]).
Proof.
  intros Hw. split.
  - intros Hn. apply strconv_facts.Atoi_not_literal in Hn.
    rewrite details_unfold.
    destruct (strconv.Atoi _) as [id [e|]]; [|now elim Hn].
    eexists. split; [reflexivity|].
    rewrite Marshal_Error_body. now apply Write_untouched.
  - intros w' p'. rewrite details_unfold.
    destruct (strconv.Atoi _) as [id [e|]].
    + intros [= <- <-]. now apply Write_untouched.
    + destruct (getBookDetails net id _ _ p) as [[d|msg] q]; [|discriminate].
      intros [= <- <-]. now apply Write_untouched_200.
Qed.

(** C9, as the code has it. Let the trailing segment of the path be an
    optional sign followed by decimal digits. When its value fits an [int]
    (from -2^63 to 2^63-1) the handler takes it as the id: it never answers
    400, and every answer it gives has status 200 and a body that starts
    with the id member of the record [getBookDetails] returned for that
    integer. That id is the integer of the path with the external source
    disabled (the body is the JSON of the literal record) and when the
    upstream answers the lookup with status 200, a first item and a first
    author. When the value does not fit an [int], the answer is the 400
    error. *)
Theorem details_signed_decimal w req p :
  untouched w ->
  decimal.syntax (path.trailing_segment (URL_Path req)) = true ->
  (forall n,
      decimal.int_literal (path.trailing_segment (URL_Path req)) = Some n ->
      (forall w' p', details net w req p = (Ret w', p') ->
         http.StatusCode_of w' = Some 200
         /\ exists d rest,
             getBookDetails net n (getForwardHeaders req) (req_Context req) p = (Ret d, p')
             /\ http.rw_body w' = id_member (Id d) +:+ rest)
      /\ (env p "ENABLE_EXTERNAL_BOOK_SERVICE" <> "true" ->
          exists w',
            details net w req p = (Ret w', p)
            /\ http.StatusCode_of w' = Some 200
            /\ http.rw_body w' = Marshal_Details (static_Details n)
            /\ Id (static_Details n) = n
            /\ exists rest, http.rw_body w' = id_member n +:+ rest)
      /\ (forall res item items author authors,
            env p "ENABLE_EXTERNAL_BOOK_SERVICE" = "true" ->
            NewRequest_fails net "GET"
              (URL (lookup_request p "0486424618" (req_Context req))) = false ->
            Do net (lookup_request p "0486424618" (req_Context req)) = inr res ->
            StatusCode res = 200 ->
            book.Items (fst (Decode net (Body res))) = item :: items ->
            book.Authors (book.VolumeInfo_ item) = author :: authors ->
            exists w' rest,
              details net w req p = (Ret w', p)
              /\ http.StatusCode_of w' = Some 200
              /\ http.rw_body w' = id_member n +:+ rest))
  /\ (decimal.int_literal (path.trailing_segment (URL_Path req)) = None ->
      exists w',
        details net w req p = (Ret w', p)
        /\ http.StatusCode_of w' = Some 400
        /\ http.rw_body w' = error_body).
Proof.
  intros Hw Hsyn. split.
  - intros n Hn. apply strconv_facts.Atoi_int_literal in Hn.
    rewrite details_unfold, Hn. split; [|split].
    + intros w' p'.
      destruct (getBookDetails net n _ _ p) as [[d|msg] q]; [|discriminate].
      intros [= <- <-].
      destruct (Write_untouched_200 w (Marshal_Details d) Hw) as (Hs & Hb & _).
      split; [exact Hs|]. destruct (Marshal_Details_id d) as [rest Hr].
      exists d, rest. split; [reflexivity | now rewrite Hb].
    + intros He. rewrite getBookDetails_unfold. fold (env p "ENABLE_EXTERNAL_BOOK_SERVICE").
      destruct (String.eqb_spec (env p "ENABLE_EXTERNAL_BOOK_SERVICE") "true");
        [contradiction|].
      destruct (Write_untouched_200 w (Marshal_Details (static_Details n)) Hw)
        as (Hs & Hb & _).
      destruct (Marshal_Details_id (static_Details n)) as [rest Hr].
      eexists. split; [reflexivity|]. split; [exact Hs|]. split; [exact Hb|].
      split; [reflexivity|]. exists rest. now rewrite Hb.
    + intros res item items author authors He H1 H2 H3 H4 H5.
      rewrite getBookDetails_unfold. fold (env p "ENABLE_EXTERNAL_BOOK_SERVICE").
      rewrite He. change ("true" =? "true")%string with true. cbv iota.
      rewrite (fetch_volume net "0486424618" n (getForwardHeaders req) (req_Context req) p
                 res item items author authors H1 H2 H3 H4 H5).
      set (d := Details_of_volume n author (book.VolumeInfo_ item)).
      destruct (Write_untouched_200 w (Marshal_Details d) Hw) as (Hs & Hb & _).
      destruct (Marshal_Details_id d) as [rest Hr].
      eexists. exists rest. split; [reflexivity|]. split; [exact Hs|].
      now rewrite Hb.
  - intros Hn. apply strconv_facts.Atoi_not_literal in Hn.
    rewrite details_unfold.
    destruct (strconv.Atoi _) as [id [e|]]; [|now elim Hn].
    eexists. split; [reflexivity|].
    rewrite Marshal_Error_body.
    destruct (Write_untouched w 400 error_body Hw) as (Hs & Hb & _). now split.
Qed.

End HandlerClaims.

Lemma details_non_numeric_witness :
  exists w',
    details refused http.newResponseWriter (request_for "/details/abc" []) (quiet ∅)
    = (Ret w', quiet ∅)
    /\ http.StatusCode_of w' = Some 400
    /\ http.rw_body w' = error_body
    /\ http.sent_values w' "Content-Type" = ["application/json"].
Proof.
  apply (details_non_numeric refused http.newResponseWriter
           (request_for "/details/abc" []) (quiet ∅) untouched_new).
  reflexivity.
Defined.

Lemma details_signed_decimal_witness :
  (exists w' rest,
     details one_book_net http.newResponseWriter (request_for "/details/-5" sample_lines)
       (quiet external_on) = (Ret w', quiet external_on)
     /\ http.StatusCode_of w' = Some 200
     /\ http.rw_body w' = id_member (-5) +:+ rest)
  /\ (exists w',
        details one_book_net http.newResponseWriter
          (request_for "/details/9223372036854775808" sample_lines) (quiet external_on)
        = (Ret w', quiet external_on)
        /\ http.StatusCode_of w' = Some 400
        /\ http.rw_body w' = error_body).
Proof.
  split.
  - exact (proj2 (proj2 (proj1 (details_signed_decimal one_book_net http.newResponseWriter
                                  (request_for "/details/-5" sample_lines)
                                  (quiet external_on) untouched_new eq_refl)
                           (-5) eq_refl))
             ok_response {| book.VolumeInfo_ := sample_volume "1595" |} []
             "William Shakespeare" [] eq_refl eq_refl eq_refl eq_refl eq_refl eq_refl).
  - exact (proj2 (details_signed_decimal one_book_net http.newResponseWriter
                    (request_for "/details/9223372036854775808" sample_lines)
                    (quiet external_on) untouched_new eq_refl) eq_refl).
Defined.

(** C9, as stated, fails: a segment of twenty nines is a sign-less run of
    decimal digits, and the handler answers 400. (Also, with the external
    source on and the upstream refusing the connection, the answer for
    /details/-5 carries the id 0.) *)
Lemma details_rejects_twenty_digits :
  decimal.syntax "99999999999999999999" = true
  /\ http.StatusCode_of <$>
       returned (details refused http.newResponseWriter
                   (request_for "/details/99999999999999999999" []) (quiet ∅))
     = Some (Some 400)
  /\ http.rw_body <$>
       returned (details refused http.newResponseWriter
                   (request_for "/details/-5" []) (quiet external_on))
     = Some (Marshal_Details Details_zero).
Proof. vm_compute. repeat split. Qed.

Section ForwardClaims.
Context {Ctx : Type}.
Implicit Types (req : Request Ctx).

(** C4. On the header map of an inbound request (its keys canonical, as
    the server builds it), [getForwardHeaders] returns the allow-listed
    part: a name of the allow-list that the input holds, under a key equal
    to it up to letter case, with a non-empty list of values is in the
    output with that same list (same values, same order); a name outside
    the allow-list is never in the output; a name of the allow-list that
    the input does not hold is left out. The function has no failing
    case. *)
Theorem getForwardHeaders_allow_list req :
  canonical_keys (Header req) ->
  (forall item k vs,
      item ∈ incomingHeaders ->
      Header req !! k = Some vs -> vs <> [] -> fold.eq_fold k item = true ->
      getForwardHeaders req !! item = Some vs)
  /\ (forall name, name ∉ incomingHeaders -> getForwardHeaders req !! name = None)
  /\ (forall item,
        item ∈ incomingHeaders ->
        (forall k vs, Header req !! k = Some vs -> fold.eq_fold k item = true -> vs = []) ->
        getForwardHeaders req !! item = None).
Proof.
  intros Hc. split; [|split].
  - intros item k vs Hin Hk Hne He. rewrite getForwardHeaders_lookup.
    rewrite decide_True by assumption.
    rewrite (Values_allow_listed req item k vs Hc Hin Hk He).
    destruct vs; [contradiction | reflexivity].
  - intros name Hn. rewrite getForwardHeaders_lookup. now rewrite decide_False.
  - intros item Hin Hno. rewrite getForwardHeaders_lookup.
    rewrite decide_True by assumption. now apply Values_entry.
Qed.

(** C10. The keys of the map that [getForwardHeaders] returns are strings
    of [incomingHeaders] as they are written there, in lower case. For a
    request read by the server, a field line whose name equals an
    allow-list string up to letter case puts that allow-list string into
    the output, with the values of all such lines in order, and the name
    as it was spelled on the line is not a key of the output unless it is
    the allow-list string itself. *)
Theorem getForwardHeaders_keys_verbatim req :
  (forall k, is_Some (getForwardHeaders req !! k) ->
             k ∈ incomingHeaders /\ fold.lower k = k)
  /\ (forall lines n v item,
        Header req = http.ReadMIMEHeader lines ->
        (n, v) ∈ lines -> item ∈ incomingHeaders -> fold.eq_fold n item = true ->
        getForwardHeaders req !! item = Some (fields_named item lines)
        /\ (n <> item -> getForwardHeaders req !! n = None)).
Proof.
  split.
  - intros k [vs Hk]. rewrite getForwardHeaders_lookup in Hk.
    destruct (decide (k ∈ incomingHeaders)) as [Hin|]; [|discriminate].
    split; [assumption | now apply incomingHeaders_tokens].
  - intros lines n v item Hh Hl Hin He.
    destruct (incomingHeaders_tokens item Hin) as [Hv Hlow].
    rewrite !getForwardHeaders_lookup, Hh. split.
    + rewrite decide_True by assumption. unfold http.Values.
      rewrite http_facts.ReadMIMEHeader_lookup, http_facts.entry_default.
      rewrite (http_facts.values_under_named item lines Hv).
      assert (Hf : In v (fields_named item lines)).
      { unfold fields_named. apply List.in_map_iff. exists (n, v). split; [reflexivity|].
        apply List.filter_In. split; [now apply list_elem_of_In | exact He]. }
      destruct (fields_named item lines); [contradiction | reflexivity].
    + intros Hne. destruct (decide (n ∈ incomingHeaders)) as [Hn|]; [|reflexivity].
      exfalso. apply Hne.
      destruct (incomingHeaders_tokens n Hn) as [_ Hnl].
      unfold fold.eq_fold in He. apply String.eqb_eq in He. congruence.
Qed.

End ForwardClaims.

Lemma getForwardHeaders_allow_list_witness :
  getForwardHeaders (request_for "/details/1" sample_lines) !! "user-agent"
  = Some ["curl/8.0"; "second"].
Proof.
  refine (proj1 (getForwardHeaders_allow_list (request_for "/details/1" sample_lines)
                   (canonical_keys_read sample_lines))
                "user-agent" "User-Agent" ["curl/8.0"; "second"] _ _ _ _).
  - apply list_elem_of_In. vm_compute. tauto.
  - vm_compute. reflexivity.
  - discriminate.
  - reflexivity.
Defined.

Lemma getForwardHeaders_keys_verbatim_witness :
  getForwardHeaders (request_for "/details/1" sample_lines) !! "x-request-id"
  = Some ["abc"]
  /\ ("X-Request-ID" <> "x-request-id" ->
      getForwardHeaders (request_for "/details/1" sample_lines) !! "X-Request-ID" = None).
Proof.
  refine (proj2 (getForwardHeaders_keys_verbatim (request_for "/details/1" sample_lines))
                sample_lines "X-Request-ID" "abc" "x-request-id" eq_refl _ _ _).
  - apply list_elem_of_In. vm_compute. tauto.
  - apply list_elem_of_In. vm_compute. tauto.
  - reflexivity.
Defined.

(** * Further properties of the code *)

(** ** Decimal text of integers *)

Module json_facts.
Import decimal.

Lemma string_of_uint_value u : forall acc,
  digits_value acc (NilEmpty.string_of_uint u) = uint_value acc u.
Proof. induction u; intros acc; cbn [NilEmpty.string_of_uint digits_value uint_value]; try apply IHu; reflexivity. Qed.

Lemma string_of_uint_digits u :
  span_digits (NilEmpty.string_of_uint u) = (NilEmpty.string_of_uint u, EmptyString).
Proof.
  induction u; cbn [NilEmpty.string_of_uint span_digits]; try reflexivity;
    rewrite IHu; reflexivity.
Qed.

Lemma uint_value_acc u : forall a,
  uint_value (Zpos a) u = Zpos (Pos.of_uint_acc u a).
Proof.
  induction u; intros a; cbn [uint_value Pos.of_uint_acc]; try reflexivity;
    rewrite <- IHu; f_equal; lia.
Qed.

Lemma uint_value_0 u : uint_value 0 u = Z.of_N (Pos.of_uint u).
Proof.
  induction u; cbn [uint_value Pos.of_uint]; try reflexivity; try exact IHu;
    cbn [Z.mul Z.add Z.of_N]; apply uint_value_acc.
Qed.

Lemma to_uint_value p : uint_value 0 (Pos.to_uint p) = Zpos p.
Proof. rewrite uint_value_0, DecimalPos.Unsigned.of_to. reflexivity. Qed.

Lemma string_of_uint_sign u :
  u <> Decimal.Nil ->
  strip_sign (NilEmpty.string_of_uint u) = (false, NilEmpty.string_of_uint u)
  /\ is_empty (NilEmpty.string_of_uint u) = false.
Proof. destruct u; intros H; [contradiction | split; reflexivity ..]. Qed.

(** The decimal text of an integer is a literal that denotes it. *)
Lemma encode_int_literal n :
  - 2 ^ 63 <= n < 2 ^ 63 -> int_literal (json.encode_int n) = Some n.
Proof.
  intros Hn.
  assert (E : syntax (json.encode_int n) = true /\ value (json.encode_int n) = n).
  { unfold json.encode_int, syntax, value. destruct n as [|p|p]; [split; reflexivity| |].
    - cbn [Z.to_int NilZero.string_of_int].
      pose proof (DecimalPos.Unsigned.to_uint_nonnil p) as Hnil.
      assert (Es : NilZero.string_of_uint (Pos.to_uint p) = NilEmpty.string_of_uint (Pos.to_uint p)).
      { destruct (Pos.to_uint p); [contradiction | reflexivity ..]. }
      rewrite Es. destruct (string_of_uint_sign _ Hnil) as [-> He]. cbn [snd].
      rewrite string_of_uint_digits. cbn [fst]. rewrite He.
      rewrite string_of_uint_value, to_uint_value. split; reflexivity.
    - cbn [Z.to_int NilZero.string_of_int].
      pose proof (DecimalPos.Unsigned.to_uint_nonnil p) as Hnil.
      assert (Es : NilZero.string_of_uint (Pos.to_uint p) = NilEmpty.string_of_uint (Pos.to_uint p)).
      { destruct (Pos.to_uint p); [contradiction | reflexivity ..]. }
      rewrite Es. destruct (string_of_uint_sign _ Hnil) as [_ He].
      cbn [strip_sign Ascii.eqb Bool.eqb snd].
      rewrite string_of_uint_digits. cbn [fst]. rewrite He.
      rewrite string_of_uint_value, to_uint_value. split; reflexivity. }
  destruct E as [Es Ev]. unfold int_literal. rewrite Es, Ev.
  destruct (Z.leb_spec (- 2 ^ 63) n); [|lia].
  destruct (Z.ltb_spec n (2 ^ 63)); [reflexivity | lia].
Qed.

End json_facts.

Module path_facts.
Import path.

Lemma has_slash_app pre s : has_slash (pre +:+ "/" +:+ s) = true.
Proof.
  induction pre as [|c pre IH]; [reflexivity|].
  change (String c pre +:+ "/" +:+ s) with (String c (pre +:+ "/" +:+ s)).
  cbn [has_slash]. rewrite IH. apply orb_true_r.
Qed.

(** What follows the last slash of [pre/s] is [s], when [s] has no slash. *)
Lemma trailing_segment_app pre s :
  has_slash s = false -> trailing_segment (pre +:+ "/" +:+ s) = s.
Proof.
  intros Hs. induction pre as [|c pre IH].
  - change ("" +:+ "/" +:+ s) with (String "/" s).
    cbn [trailing_segment]. rewrite Hs. reflexivity.
  - change (String c pre +:+ "/" +:+ s) with (String c (pre +:+ "/" +:+ s)).
    cbn [trailing_segment]. rewrite has_slash_app. exact IH.
Qed.

Lemma string_of_uint_no_slash u : has_slash (NilEmpty.string_of_uint u) = false.
Proof. induction u; cbn [NilEmpty.string_of_uint has_slash]; try reflexivity; exact IHu. Qed.

Lemma encode_int_no_slash n : has_slash (json.encode_int n) = false.
Proof.
  unfold json.encode_int.
  assert (H : forall u, has_slash (NilZero.string_of_uint u) = false).
  { intros u. pose proof (string_of_uint_no_slash u) as Hu.
    destruct u; [reflexivity | exact Hu ..]. }
  destruct (Z.to_int n); cbn [NilZero.string_of_int has_slash]; [apply H|].
  cbn [Ascii.eqb Bool.eqb orb]. apply H.
Qed.

End path_facts.

(** ** Further facts about [Atoi], the identifier map and header names *)

Module strconv_range.
Import strconv.

Lemma to_int_range z : - 2 ^ 63 <= to_int z < 2 ^ 63.
Proof.
  unfold to_int. pose proof (Z.mod_pos_bound (z + 2 ^ 63) (2 ^ 64) ltac:(lia)). lia.
Qed.

(** The value [Atoi] returns is an [int], with or without an error. *)
Lemma Atoi_range s : - 2 ^ 63 <= fst (Atoi s) < 2 ^ 63.
Proof.
  rewrite strconv_facts.Atoi_eq_cases, <- strconv_facts.Atoi_cases_int.
  apply to_int_range.
Qed.

(** [Atoi] succeeds exactly on the literals. *)
Lemma Atoi_ok_iff s n : Atoi s = (n, None) <-> decimal.int_literal s = Some n.
Proof.
  split; [|apply strconv_facts.Atoi_int_literal].
  intros H. destruct (decimal.int_literal s) as [m|] eqn:Hl.
  - apply strconv_facts.Atoi_int_literal in Hl. congruence.
  - apply strconv_facts.Atoi_not_literal in Hl. rewrite H in Hl. now elim Hl.
Qed.

End strconv_range.

Lemma isbn_map_lookup (l : list book.IndustryIdentifier) : forall (acc : gmap string string) ty,
  foldl (fun m item => <[book.Type_ item := book.Identifier item]> m) acc l !! ty
  = match last_identifier ty l with
    | Some x => Some x
    | None => acc !! ty
    end.
Proof.
  induction l as [|item l IH]; intros acc ty; [reflexivity|].
  cbn [foldl last_identifier]. rewrite IH.
  destruct (last_identifier ty l); [reflexivity|].
  destruct (String.eqb_spec (book.Type_ item) ty) as [->|Hne].
  - apply lookup_insert_eq.
  - now apply lookup_insert_ne.
Qed.

(** No allow-listed name is the canonical form of a header name: the
    canonical form of a token never starts with a lower-case letter. *)
Lemma Canonical_not_allow_listed name item :
  item ∈ incomingHeaders -> textproto.CanonicalMIMEHeaderKey name <> item.
Proof.
  intros Hin E.
  destruct (incomingHeaders_tokens item Hin) as [Hv _].
  assert (Hfirst : List.forallb (fun item =>
            match item with
            | EmptyString => false
            | String c _ => (97 <=? byte_val c) && (byte_val c <=? 122)
            end) incomingHeaders = true) by (vm_compute; reflexivity).
  rewrite List.forallb_forall in Hfirst.
  specialize (Hfirst item (proj1 (list_elem_of_In _ _) Hin)).
  unfold textproto.CanonicalMIMEHeaderKey in E.
  destruct (textproto.all_bytes textproto.validHeaderFieldByte name) eqn:Hn.
  - destruct name as [|c name]; [subst item; discriminate|].
    rewrite textproto_facts.canonicalize_cons in E. subst item.
    assert (Hc : forall c, negb ((97 <=? byte_val (byte_of (canon_byte true c)))
                                 && (byte_val (byte_of (canon_byte true c)) <=? 122)) = true).
    { apply textproto_facts.by_enumeration1. vm_compute. reflexivity. }
    specialize (Hc c). rewrite Hfirst in Hc. discriminate.
  - subst item. congruence.
Qed.

(** ** The header filter *)

Section ExtraForward.
Context {Ctx : Type}.
Implicit Types (req : Request Ctx).

(** X14. Every list in the map that [getForwardHeaders] returns is non-empty,
    and is the list the request holds under the canonical form of its
    key. *)
Theorem getForwardHeaders_values_nonempty req k vs :
  getForwardHeaders req !! k = Some vs ->
  vs <> [] /\ Header req !! textproto.CanonicalMIMEHeaderKey k = Some vs.
Proof.
  rewrite getForwardHeaders_lookup.
  destruct (decide (k ∈ incomingHeaders)); [|discriminate].
  unfold http.Values.
  destruct (Header req !! textproto.CanonicalMIMEHeaderKey k) as [ws|];
    cbn [default from_option id]; [|discriminate].
  destruct ws; [discriminate|]. intros [= <-]. split; [discriminate | reflexivity].
Qed.

(** X15. The map that [getForwardHeaders] returns has lower-case keys, so
    [Header.Values] (which looks up the canonical form of a name) finds
    nothing in it, whatever the name; and [getForwardHeaders] applied to a
    request that carries this map as its header returns the empty map. *)
Theorem getForwardHeaders_not_canonical req :
  (forall name, http.Values (getForwardHeaders req) name = [])
  /\ (forall (path : string) (ctx : Ctx),
        getForwardHeaders {| URL_Path := path; Header := getForwardHeaders req;
                             req_Context := ctx |} = (∅ : http.Header)).
Proof.
  assert (H : forall name, http.Values (getForwardHeaders req) name = []).
  { intros name. unfold http.Values. rewrite getForwardHeaders_lookup.
    destruct (decide (_ ∈ incomingHeaders)) as [Hin|]; [|reflexivity].
    now elim (Canonical_not_allow_listed name _ Hin). }
  split; [exact H|]. intros path ctx. apply map_eq. intros k.
  rewrite getForwardHeaders_lookup, lookup_empty. cbn [Header].
  rewrite H. now destruct (decide _).
Qed.

End ExtraForward.

(** X16. For requests read by the server, the map that [getForwardHeaders]
    returns depends on the field lines only through the lines whose name is
    on the allow-list up to letter case: two requests whose lines agree on
    every allow-listed name get the same map. *)
Theorem getForwardHeaders_only_allow_listed_lines
    {Ctx : Type} (lines lines' : list (string * string)) (path path' : string) (ctx ctx' : Ctx) :
  (forall item, item ∈ incomingHeaders -> fields_named item lines = fields_named item lines') ->
  getForwardHeaders {| URL_Path := path; Header := http.ReadMIMEHeader lines;
                       req_Context := ctx |}
  = getForwardHeaders {| URL_Path := path'; Header := http.ReadMIMEHeader lines';
                         req_Context := ctx' |}.
Proof.
  intros H. apply map_eq. intros k. rewrite !getForwardHeaders_lookup. cbn [Header].
  destruct (decide (k ∈ incomingHeaders)) as [Hin|]; [|reflexivity].
  destruct (incomingHeaders_tokens k Hin) as [Hv _].
  unfold http.Values. rewrite !http_facts.ReadMIMEHeader_lookup, !http_facts.entry_default.
  rewrite !(http_facts.values_under_named k _ Hv). now rewrite (H k Hin).
Qed.

(** ** The resolver and the external client *)

Section ExtraResolver.
Context {Ctx : Type} (net : Net Ctx).
Implicit Types (p : Proc) (id : Z) (headers : http.Header) (ctx : Ctx).

Lemma fetch_headers_unused isbn id headers headers' ctx p :
  fetchDetailsFromExternalService net isbn id headers ctx p
  = fetchDetailsFromExternalService net isbn id headers' ctx p.
Proof. now rewrite !fetch_unfold. Qed.

Lemma getBookDetails_headers_unused id headers headers' ctx p :
  getBookDetails net id headers ctx p = getBookDetails net id headers' ctx p.
Proof.
  rewrite !getBookDetails_unfold.
  destruct (String.eqb _ "true"); [apply fetch_headers_unused | reflexivity].
Qed.

(** X10. In the record built from an upstream answer, isbn-10 and isbn-13 are
    the identifiers of the last industry identifier of type ISBN_10 and
    ISBN_13 (a later entry of a type replaces an earlier one), and the empty
    string when the answer has no entry of that type. *)
Theorem fetch_isbn_last_wins isbn id headers ctx p res item items author authors :
  NewRequest_fails net "GET" (URL (lookup_request p isbn ctx)) = false ->
  Do net (lookup_request p isbn ctx) = inr res ->
  StatusCode res = 200 ->
  book.Items (fst (Decode net (Body res))) = item :: items ->
  book.Authors (book.VolumeInfo_ item) = author :: authors ->
  exists d,
    fetchDetailsFromExternalService net isbn id headers ctx p = (Ret d, p)
    /\ ISBN_10 d = default "" (last_identifier "ISBN_10"
                                 (book.IndustryIdentifiers (book.VolumeInfo_ item)))
    /\ ISBN_13 d = default "" (last_identifier "ISBN_13"
                                 (book.IndustryIdentifiers (book.VolumeInfo_ item))).
Proof.
  intros H1 H2 H3 H4 H5. eexists. split; [eapply fetch_volume; eassumption|].
  cbn [Details_of_volume ISBN_10 ISBN_13]. rewrite !isbn_map_lookup, !lookup_empty.
  split; destruct (last_identifier _ _); reflexivity.
Qed.

(** X11. The result of a call depends on the upstream only through what
    [http.NewRequest] and [client.Do] return for one request, the GET of
    [<scheme>://www.googleapis.com/books/v1/volumes?q=isbn:<isbn>] bound to
    the caller's context, with the scheme http when [DO_NOT_ENCRYPT] is
    ["true"] and https otherwise, and through what [Decode] leaves for the
    body of that answer: two upstreams that agree there give the same
    result, whatever they return for other requests and other bodies. *)
Theorem fetch_single_request (net' : Net Ctx) isbn id headers ctx p :
  let scheme := if String.eqb (env p "DO_NOT_ENCRYPT") "true" then "http" else "https" in
  let uri := scheme +:+ "://www.googleapis.com/books/v1/volumes?q=isbn:" +:+ isbn in
  let request := {| Method := "GET"; URL := uri; out_Context := ctx |} in
  NewRequest_fails net "GET" uri = NewRequest_fails net' "GET" uri ->
  Do net request = Do net' request ->
  (forall res, Do net request = inr res ->
               fst (Decode net (Body res)) = fst (Decode net' (Body res))) ->
  fetchDetailsFromExternalService net isbn id headers ctx p
  = fetchDetailsFromExternalService net' isbn id headers ctx p.
Proof.
  intros scheme uri request Hn Hd Hb. rewrite !fetch_unfold. cbv zeta.
  change (lookup_request p isbn ctx) with request.
  change (URL request) with uri. rewrite <- Hn, <- Hd.
  destruct (NewRequest_fails net "GET" uri); [reflexivity|].
  destruct (Do net request) as [err|res] eqn:E; [reflexivity|].
  now rewrite <- (Hb res eq_refl).
Qed.

(** X12. A record that [getBookDetails] returns either carries the id it was
    called with or is the zero record (id 0). *)
Theorem getBookDetails_id_or_zero id headers ctx p d p' :
  getBookDetails net id headers ctx p = (Ret d, p') ->
  Id d = id \/ d = Details_zero.
Proof.
  rewrite getBookDetails_unfold, fetch_unfold. cbv zeta.
  destruct (String.eqb _ "true"); [|intros [= <- <-]; now left].
  destruct (NewRequest_fails net _ _); [intros [= <- <-]; now right|].
  destruct (Do net _) as [err|res]; [intros [= <- <-]; now right|].
  destruct (negb _); [intros [= <- <-]; now right|].
  destruct (book.Items _) as [|item items]; [discriminate|].
  destruct (book.Authors _) as [|author authors]; [discriminate|].
  intros [= <- <-]. now left.
Qed.

(** X13. In every record that [getBookDetails] returns, type is paperback,
    unknown or empty and language is English, unknown or empty, whatever
    print type and language the upstream sent. *)
Theorem getBookDetails_field_ranges id headers ctx p d p' :
  getBookDetails net id headers ctx p = (Ret d, p') ->
  (Type_ d = "paperback" \/ Type_ d = "unknown" \/ Type_ d = "")
  /\ (Language d = "English" \/ Language d = "unknown" \/ Language d = "").
Proof.
  rewrite getBookDetails_unfold, fetch_unfold. cbv zeta.
  assert (Hz : (Type_ Details_zero = "paperback" \/ Type_ Details_zero = "unknown"
                \/ Type_ Details_zero = "")
               /\ (Language Details_zero = "English" \/ Language Details_zero = "unknown"
                   \/ Language Details_zero = ""))
    by (cbn; repeat split; auto).
  destruct (String.eqb _ "true").
  2:{ intros [= <- <-]. cbn. repeat split; auto. }
  destruct (NewRequest_fails net _ _); [intros [= <- <-]; exact Hz|].
  destruct (Do net _) as [err|res]; [intros [= <- <-]; exact Hz|].
  destruct (negb _); [intros [= <- <-]; exact Hz|].
  destruct (book.Items _) as [|item items]; [discriminate|].
  destruct (book.Authors _) as [|author authors]; [discriminate|].
  intros [= <- <-]. cbn [Details_of_volume Type_ Language].
  split; [destruct (String.eqb _ "BOOK"); auto|].
  destruct (String.eqb _ "en"); auto.
Qed.

End ExtraResolver.

(** ** The handlers *)

Section ExtraHandler.
Context {Ctx : Type} (net : Net Ctx).
Implicit Types (p : Proc) (req : Request Ctx) (w : http.ResponseWriter).


(** X2. An answer of [details] has status 400 or 200, and it is 400 exactly
    when the trailing segment of the path is not a signed decimal integer
    within the range of an [int]. *)
Theorem details_status_cases w req p w' p' :
  untouched w ->
  details net w req p = (Ret w', p') ->
  (http.StatusCode_of w' = Some 400
   /\ decimal.int_literal (path.trailing_segment (URL_Path req)) = None)
  \/ (http.StatusCode_of w' = Some 200
      /\ exists n, decimal.int_literal (path.trailing_segment (URL_Path req)) = Some n).
Proof.
  intros Hw. rewrite details_unfold.
  destruct (decimal.int_literal (path.trailing_segment (URL_Path req))) as [n|] eqn:Hl.
  - rewrite (strconv_facts.Atoi_int_literal _ _ Hl).
    destruct (getBookDetails net n _ _ p) as [[d|msg] q]; [|discriminate].
    intros [= <- <-]. right. split; [now apply Write_untouched_200 | now exists n].
  - pose proof (strconv_facts.Atoi_not_literal _ Hl) as He.
    destruct (strconv.Atoi _) as [id [e|]]; [|now elim He].
    intros [= <- <-]. left. split; [now apply Write_untouched | reflexivity].
Qed.

(** X3. [details] panics in one situation only: the id is valid, the external
    source is enabled, and the upstream answers the lookup with status 200
    and a body without items or with a first item without authors. With a
    non-numeric id or with the external source disabled it never panics. *)
Theorem details_panics_iff w req p :
  (exists msg p', details net w req p = (Panic msg, p'))
  <-> (exists n res,
         decimal.int_literal (path.trailing_segment (URL_Path req)) = Some n
         /\ env p "ENABLE_EXTERNAL_BOOK_SERVICE" = "true"
         /\ NewRequest_fails net "GET"
              (URL (lookup_request p "0486424618" (req_Context req))) = false
         /\ Do net (lookup_request p "0486424618" (req_Context req)) = inr res
         /\ unusable_answer net res).
Proof.
  rewrite details_unfold.
  destruct (decimal.int_literal (path.trailing_segment (URL_Path req))) as [n|] eqn:Hl.
  2:{ pose proof (strconv_facts.Atoi_not_literal _ Hl) as He.
      destruct (strconv.Atoi _) as [id [e|]]; [|now elim He].
      split; [intros (msg & q & H); discriminate | intros (m & res & H & _); discriminate]. }
  rewrite (strconv_facts.Atoi_int_literal _ _ Hl).
  rewrite getBookDetails_unfold, fetch_unfold. cbv zeta.
  fold (env p "ENABLE_EXTERNAL_BOOK_SERVICE"). unfold unusable_answer.
  destruct (String.eqb_spec (env p "ENABLE_EXTERNAL_BOOK_SERVICE") "true") as [He|He].
  2:{ split; [intros (msg & q & H); discriminate
             | intros (m & res & _ & H & _); contradiction]. }
  destruct (NewRequest_fails net _ _).
  { split; [intros (msg & q & H); discriminate
           | intros (m & res & _ & _ & H & _); discriminate]. }
  destruct (Do net _) as [err|res].
  { split; [intros (msg & q & H); discriminate
           | intros (m & res & _ & _ & _ & H & _); discriminate]. }
  destruct (Z.eqb_spec (StatusCode res) 200) as [Hs|Hs]; cbn [negb].
  2:{ split; [intros (msg & q & H); discriminate
             | intros (m & res' & _ & _ & _ & [= <-] & H & _); contradiction]. }
  destruct (book.Items _) as [|item items] eqn:Hi.
  { split; [|intros _; eauto]. intros _. exists n, res. rewrite Hi. auto 10. }
  destruct (book.Authors _) as [|author authors] eqn:Ha.
  { split; [|intros _; eauto]. intros _. exists n, res. rewrite Hi.
    repeat split; auto. right. eauto. }
  split; [intros (msg & q & H); discriminate|].
  intros (m & res' & _ & _ & _ & [= <-] & _ & [H|(it & its & H & H')]).
  - rewrite Hi in H. discriminate.
  - rewrite Hi in H. injection H as <- <-. rewrite Ha in H'. discriminate.
Qed.

(** X4. The result of [details] does not depend on the inbound headers: two
    requests with the same path and the same context get the same result,
    whatever their headers. *)
Theorem details_ignores_headers w req req' p :
  URL_Path req = URL_Path req' ->
  req_Context req = req_Context req' ->
  details net w req p = details net w req' p.
Proof.
  intros Hp Hc. rewrite !details_unfold, Hp, Hc.
  destruct (strconv.Atoi _) as [id [e|]]; [reflexivity|].
  now rewrite (getBookDetails_headers_unused net id (getForwardHeaders req)
                 (getForwardHeaders req')).
Qed.

(** X5. With the external source enabled and a valid id, a failed upstream call
    (a transport error, or an answer whose status is not 200) still gives
    the answer 200; its body is the JSON of the zero record, so its id is 0
    and not the id requested; and one line is printed, the error text or the
    status line. *)
Theorem details_upstream_failure w req p n line :
  untouched w ->
  decimal.int_literal (path.trailing_segment (URL_Path req)) = Some n ->
  env p "ENABLE_EXTERNAL_BOOK_SERVICE" = "true" ->
  NewRequest_fails net "GET"
    (URL (lookup_request p "0486424618" (req_Context req))) = false ->
  match Do net (lookup_request p "0486424618" (req_Context req)) with
  | inl err => line = err
  | inr res => StatusCode res <> 200 /\ line = Status res
  end ->
  exists w',
    details net w req p
    = (Ret w', {| environ := environ p; stdout := stdout p ++ [line] |})
    /\ http.StatusCode_of w' = Some 200
    /\ http.rw_body w' = Marshal_Details Details_zero.
Proof.
  intros Hw Hl He Hn Hd. rewrite details_unfold, (strconv_facts.Atoi_int_literal _ _ Hl).
  rewrite getBookDetails_unfold. fold (env p "ENABLE_EXTERNAL_BOOK_SERVICE").
  rewrite He. change ("true" =? "true")%string with true. cbv iota.
  rewrite fetch_unfold. cbv zeta. rewrite Hn.
  destruct (Write_untouched_200 w (Marshal_Details Details_zero) Hw) as (Hs & Hb & _).
  destruct (Do net _) as [err|res].
  - subst line. eexists. split; [reflexivity|]. now split.
  - destruct Hd as [Hne ->].
    destruct (Z.eqb_spec (StatusCode res) 200); [contradiction|]. cbn [negb].
    eexists. split; [reflexivity|]. now split.
Qed.

(** X6. Handling a request never changes the environment of the process and
    prints at most one line. *)
Theorem details_effects w req p :
  environ (snd (details net w req p)) = environ p
  /\ exists lines,
      stdout (snd (details net w req p)) = stdout p ++ lines
      /\ (length lines <= 1)%nat.
Proof.
  rewrite details_unfold.
  assert (Hsame : environ p = environ p
                  /\ exists lines, stdout p = stdout p ++ lines /\ (length lines <= 1)%nat).
  { split; [reflexivity|]. exists []. rewrite app_nil_r. split; [reflexivity | simpl; lia]. }
  destruct (strconv.Atoi _) as [id [e|]]; [exact Hsame|].
  rewrite getBookDetails_unfold, fetch_unfold. cbv zeta.
  destruct (String.eqb _ "true"); [|exact Hsame].
  destruct (NewRequest_fails net _ _); [exact Hsame|].
  destruct (Do net _) as [err|res].
  { split; [reflexivity|]. exists [err]. split; [reflexivity | simpl; lia]. }
  destruct (negb _).
  { split; [reflexivity|]. exists [Status res]. split; [reflexivity | simpl; lia]. }
  destruct (book.Items _) as [|item items]; [exact Hsame|].
  destruct (book.Authors _) as [|author authors]; exact Hsame.
Qed.

(** X7. A path that ends in a slash has an empty id: [details] answers 400 with
    the error body, as for any non-numeric id. *)
Theorem details_empty_id w req p pre :
  untouched w ->
  URL_Path req = pre +:+ "/" ->
  exists w',
    details net w req p = (Ret w', p)
    /\ http.StatusCode_of w' = Some 400
    /\ http.rw_body w' = error_body.
Proof.
  intros Hw Hp. rewrite details_unfold, Hp.
  change (pre +:+ "/") with (pre +:+ "/" +:+ "").
  rewrite (path_facts.trailing_segment_app pre "" eq_refl).
  change (strconv.Atoi "") with (0, Some strconv.ErrSyntax).
  eexists. split; [reflexivity|]. rewrite Marshal_Error_body.
  destruct (Write_untouched w 400 error_body Hw) as (Hs & Hb & _). now split.
Qed.

(** X8. The id is taken by value: two paths whose trailing segments denote the
    same integer (7, +7, 007) get the same result, headers apart. *)
Theorem details_same_integer w req req' p n :
  decimal.int_literal (path.trailing_segment (URL_Path req)) = Some n ->
  decimal.int_literal (path.trailing_segment (URL_Path req')) = Some n ->
  req_Context req = req_Context req' ->
  details net w req p = details net w req' p.
Proof.
  intros H1 H2 Hc. rewrite !details_unfold.
  rewrite (strconv_facts.Atoi_int_literal _ _ H1), (strconv_facts.Atoi_int_literal _ _ H2), Hc.
  now rewrite (getBookDetails_headers_unused net n (getForwardHeaders req)
                 (getForwardHeaders req')).
Qed.

(** X9. Round trip of the id: the decimal text that [json.Marshal] writes for
    an [int] is a path segment that [details] parses back to that [int]; with
    the external source disabled, the path [<prefix>/<decimal of n>] is
    answered with the literal record for [n]. *)
Theorem details_decimal_round_trip w req p pre n :
  untouched w ->
  - 2 ^ 63 <= n < 2 ^ 63 ->
  URL_Path req = pre +:+ "/" +:+ json.encode_int n ->
  env p "ENABLE_EXTERNAL_BOOK_SERVICE" <> "true" ->
  strconv.Atoi (json.encode_int n) = (n, None)
  /\ exists w',
      details net w req p = (Ret w', p)
      /\ http.StatusCode_of w' = Some 200
      /\ http.rw_body w' = Marshal_Details (static_Details n).
Proof.
  intros Hw Hn Hp He.
  pose proof (strconv_facts.Atoi_int_literal _ _ (json_facts.encode_int_literal n Hn)) as Ha.
  split; [exact Ha|].
  rewrite details_unfold, Hp.
  rewrite (path_facts.trailing_segment_app pre _ (path_facts.encode_int_no_slash n)), Ha.
  rewrite getBookDetails_unfold. fold (env p "ENABLE_EXTERNAL_BOOK_SERVICE").
  destruct (String.eqb_spec (env p "ENABLE_EXTERNAL_BOOK_SERVICE") "true"); [contradiction|].
  destruct (Write_untouched_200 w (Marshal_Details (static_Details n)) Hw) as (Hs & Hb & _).
  eexists. split; [reflexivity|]. now split.
Qed.

End ExtraHandler.

(** ** Instances on the sample surroundings *)


Lemma details_status_cases_witness :
  let w' := answer_of (details refused http.newResponseWriter
                         (request_for "/details/abc" []) (quiet ∅)) in
  (http.StatusCode_of w' = Some 400
   /\ decimal.int_literal (path.trailing_segment "/details/abc") = None)
  \/ (http.StatusCode_of w' = Some 200
      /\ exists n, decimal.int_literal (path.trailing_segment "/details/abc") = Some n).
Proof.
  exact (details_status_cases refused http.newResponseWriter
           (request_for "/details/abc" []) (quiet ∅) _ (quiet ∅) untouched_new eq_refl).
Defined.

Lemma details_ignores_headers_witness :
  details refused http.newResponseWriter (request_for "/details/1" sample_lines) (quiet ∅)
  = details refused http.newResponseWriter (request_for "/details/1" []) (quiet ∅).
Proof.
  exact (details_ignores_headers refused http.newResponseWriter
           (request_for "/details/1" sample_lines) (request_for "/details/1" [])
           (quiet ∅) eq_refl eq_refl).
Defined.

Lemma details_upstream_failure_witness :
  exists w',
    details refused http.newResponseWriter (request_for "/details/-5" []) (quiet external_on)
    = (Ret w', {| environ := external_on;
                  stdout := [] ++ ["dial tcp: connect: connection refused"] |})
    /\ http.StatusCode_of w' = Some 200
    /\ http.rw_body w' = Marshal_Details Details_zero.
Proof.
  apply (details_upstream_failure refused http.newResponseWriter
           (request_for "/details/-5" []) (quiet external_on) (-5)
           "dial tcp: connect: connection refused" untouched_new);
    vm_compute; reflexivity.
Defined.

Lemma details_empty_id_witness :
  exists w',
    details refused http.newResponseWriter (request_for "/details/" []) (quiet ∅)
    = (Ret w', quiet ∅)
    /\ http.StatusCode_of w' = Some 400
    /\ http.rw_body w' = error_body.
Proof.
  exact (details_empty_id refused http.newResponseWriter (request_for "/details/" [])
           (quiet ∅) "/details" untouched_new eq_refl).
Defined.

Lemma details_same_integer_witness :
  details refused http.newResponseWriter (request_for "/details/7" []) (quiet ∅)
  = details refused http.newResponseWriter (request_for "/details/+007" sample_lines) (quiet ∅).
Proof.
  exact (details_same_integer refused http.newResponseWriter
           (request_for "/details/7" []) (request_for "/details/+007" sample_lines)
           (quiet ∅) 7 eq_refl eq_refl eq_refl).
Defined.

Lemma details_decimal_round_trip_witness :
  strconv.Atoi (json.encode_int (-5)) = (-5, None)
  /\ exists w',
      details refused http.newResponseWriter (request_for "/details/-5" []) (quiet ∅)
      = (Ret w', quiet ∅)
      /\ http.StatusCode_of w' = Some 200
      /\ http.rw_body w' = Marshal_Details (static_Details (-5)).
Proof.
  apply (details_decimal_round_trip refused http.newResponseWriter
           (request_for "/details/-5" []) (quiet ∅) "/details" (-5) untouched_new).
  - lia.
  - reflexivity.
  - vm_compute. discriminate.
Defined.

Lemma fetch_isbn_last_wins_witness :
  exists d,
    fetchDetailsFromExternalService (one_volume duplicate_isbn_volume) "0486424618" 42 ∅ tt
      (quiet external_on) = (Ret d, quiet external_on)
    /\ ISBN_10 d = "2222222222"
    /\ ISBN_13 d = "".
Proof.
  exact (fetch_isbn_last_wins (one_volume duplicate_isbn_volume) "0486424618" 42 ∅ tt
           (quiet external_on) ok_response
           {| book.VolumeInfo_ := duplicate_isbn_volume |} []
           "First Author" ["Second Author"] eq_refl eq_refl eq_refl eq_refl eq_refl).
Defined.

Lemma fetch_single_request_witness :
  fetchDetailsFromExternalService one_book_net "0486424618" 42 ∅ tt (quiet external_on)
  = fetchDetailsFromExternalService other_book_net "0486424618" 42 ∅ tt (quiet external_on)
  /\ Do one_book_net {| Method := "GET"; URL := "http://example.org/"; out_Context := tt |}
     <> Do other_book_net {| Method := "GET"; URL := "http://example.org/"; out_Context := tt |}
  /\ Decode one_book_net "[]" <> Decode other_book_net "[]".
Proof.
  split; [|split; discriminate].
  apply (fetch_single_request one_book_net other_book_net "0486424618" 42 ∅ tt
           (quiet external_on)).
  - reflexivity.
  - reflexivity.
  - intros res H. injection H as <-. reflexivity.
Defined.

Lemma getBookDetails_id_or_zero_witness :
  Id Details_zero = 42 \/ Details_zero = Details_zero.
Proof.
  exact (getBookDetails_id_or_zero refused 42 ∅ tt (quiet external_on) Details_zero
           {| environ := external_on;
              stdout := ["dial tcp: connect: connection refused"] |} eq_refl).
Defined.

Lemma getBookDetails_field_ranges_witness :
  let d := Details_of_volume 42 "First Author" duplicate_isbn_volume in
  ((Type_ d = "paperback" \/ Type_ d = "unknown" \/ Type_ d = "")
   /\ (Language d = "English" \/ Language d = "unknown" \/ Language d = ""))
  /\ Type_ d = "unknown" /\ Language d = "unknown"
  /\ book.PrintType duplicate_isbn_volume = "MAGAZINE"
  /\ book.Language duplicate_isbn_volume = "fr".
Proof.
  split; [|repeat split].
  exact (getBookDetails_field_ranges (one_volume duplicate_isbn_volume) 42 ∅ tt
           (quiet external_on)
           (Details_of_volume 42 "First Author" duplicate_isbn_volume)
           (quiet external_on) eq_refl).
Defined.

Lemma getForwardHeaders_values_nonempty_witness :
  ["curl/8.0"; "second"] <> []
  /\ Header (request_for "/details/1" sample_lines)
       !! textproto.CanonicalMIMEHeaderKey "user-agent" = Some ["curl/8.0"; "second"].
Proof.
  apply (getForwardHeaders_values_nonempty (request_for "/details/1" sample_lines)
           "user-agent" ["curl/8.0"; "second"]).
  vm_compute. reflexivity.
Defined.

Lemma getForwardHeaders_only_allow_listed_lines_witness :
  getForwardHeaders (request_for "/details/1" sample_lines)
  = getForwardHeaders (request_for "/details/2" allow_listed_lines).
Proof.
  apply (getForwardHeaders_only_allow_listed_lines sample_lines allow_listed_lines
           "/details/1" "/details/2" tt tt).
  intros item Hin. apply list_elem_of_In in Hin. cbn [incomingHeaders In] in Hin.
  repeat (destruct Hin as [<-|Hin]; [reflexivity|]). contradiction.
Defined.
